(** * CloudPico BLE advertising: telemetry encoding and advertisement lifecycle

    A shallow embedding of [src/csensor/ble_advertise.c] and
    [src/csensor/ble_advertise.h], and the properties of the wire format and
    of the lifecycle controller stated in the specification.

    Conventions.
    - A [uint8_t] or [uint32_t] is a [Z]; the conversions C performs on
      assignment and on casts are written out ([u8], [u32]).
    - A C [float] is represented by its 32-bit object representation, which
      is all the encoder ever looks at ([*(uint32_t* )&temp]).
    - The file-scope statics of [ble_advertise.c] are the fields of [state];
      the calls into BTstack and the CYW43 driver are recorded in a trace,
      the [printf] lines in a console log.
    - The BTstack constants and packet accessors live in headers that are not
      part of the repository sources; they are taken as parameters
      ([btstack]). *)

From stdpp Require Import base numbers list.

Local Open Scope Z_scope.

(** ** Machine integers *)

(** Conversion to [uint8_t]. *)
Definition u8 (x : Z) : Z := x mod 256.

(** Conversion to [uint32_t]. *)
Definition u32 (x : Z) : Z := x mod 2 ^ 32.

Definition is_uint8 (x : Z) : Prop := 0 <= x < 256.
Definition is_uint32 (x : Z) : Prop := 0 <= x < 2 ^ 32.

(** ** Single-precision floats, by object representation *)

Record float32 := Float32 { f32_bits : Z }.

Definition is_float32 (f : float32) : Prop := is_uint32 (f32_bits f).

(** The three IEEE-754 binary32 fields of a bit pattern. *)
Definition f32_sign (f : float32) : Z := Z.land (Z.shiftr (f32_bits f) 31) 1.
Definition f32_exponent (f : float32) : Z := Z.land (Z.shiftr (f32_bits f) 23) 0xFF.
Definition f32_fraction (f : float32) : Z := Z.land (f32_bits f) 0x7FFFFF.

Definition f32_is_nan (f : float32) : bool :=
  (f32_exponent f =? 255) && negb (f32_fraction f =? 0).
Definition f32_is_inf (f : float32) : bool :=
  (f32_exponent f =? 255) && (f32_fraction f =? 0).
Definition f32_is_subnormal (f : float32) : bool :=
  (f32_exponent f =? 0) && negb (f32_fraction f =? 0).

(** [0.0f] *)
Definition f32_zero : float32 := Float32 0.
Definition f32_quiet_nan : float32 := Float32 0x7FC00000.
Definition f32_pos_inf : float32 := Float32 0x7F800000.
Definition f32_neg_inf : float32 := Float32 0xFF800000.
Definition f32_min_subnormal : float32 := Float32 0x00000001.

(** ** ble_advertise.h *)

Definition BLE_COMPANY_ID : Z := 0xFFFF.
Definition BLE_MAGIC_0 : Z := 0x01.
Definition BLE_MAGIC_1 : Z := 0xD0.

Record sensor_data_t := SensorData {
  temperature : float32;
  pressure : float32;
  humidity : float32
}.

(** ** What the sources take from BTstack *)

(** The constants of [btstack.h] that [ble_advertise.c] names, and the two
    packet accessors it calls. Their definitions are not among the sources. *)
Class btstack := {
  BLUETOOTH_DATA_TYPE_FLAGS : Z;
  BLUETOOTH_DATA_TYPE_MANUFACTURER_SPECIFIC_DATA : Z;
  HCI_EVENT_PACKET : Z;
  BTSTACK_EVENT_STATE : Z;
  HCI_STATE_WORKING : Z;
  hci_event_packet_get_type : list Z → Z;
  btstack_event_state_get_state : list Z → Z
}.

(** The values BTstack gives them, used to run the model on concrete inputs. *)
Definition btstack_defs : btstack := {|
  BLUETOOTH_DATA_TYPE_FLAGS := 0x01;
  BLUETOOTH_DATA_TYPE_MANUFACTURER_SPECIFIC_DATA := 0xFF;
  HCI_EVENT_PACKET := 0x04;
  BTSTACK_EVENT_STATE := 0x60;
  HCI_STATE_WORKING := 2;
  hci_event_packet_get_type := λ packet, default 0 (packet !! 0%nat);
  btstack_event_state_get_state := λ packet, default 0 (packet !! 2%nat)
|}.

(** ** Writing through a byte pointer *)

(** A pointer [p] into a byte buffer: the buffer and the offset of [p]. *)
Record cursor := Cursor { buf : list Z; pos : nat }.

(** [*p++ = v;] with [p] a [uint8_t *]. A store past the end of the buffer is
    undefined in C; here it leaves the buffer as it is. *)
Definition store (v : Z) (p : cursor) : cursor :=
  {| buf := <[pos p := u8 v]> (buf p); pos := S (pos p) |}.

(** [memcpy(p, src, n);] *)
Definition memcpy (src : list Z) (n : nat) (p : cursor) : cursor :=
  {| buf := foldl (λ dst i, match src !! i with
                            | Some v => <[(pos p + i)%nat := v]> dst
                            | None => dst
                            end) (buf p) (seq 0 n);
     pos := pos p |}.

(** [p += n;] *)
Definition advance (n : nat) (p : cursor) : cursor :=
  {| buf := buf p; pos := (pos p + n)%nat |}.

(** ** The telemetry encoder: manufacturer payload *)

(** [build_manufacturer_data]: [buffer] is the content of the caller's array
    on entry, the result its content on return. *)
Definition build_manufacturer_data (buffer : list Z) (dev_id read_id : Z)
    (temp pressure humidity : float32) : list Z :=
  let p := Cursor buffer 0 in
  (* Magic bytes *)
  let p := store BLE_MAGIC_0 p in
  let p := store BLE_MAGIC_1 p in
  (* Device ID (little-endian uint32) *)
  let p := store (u8 (Z.land dev_id 0xFF)) p in
  let p := store (u8 (Z.land (Z.shiftr dev_id 8) 0xFF)) p in
  let p := store (u8 (Z.land (Z.shiftr dev_id 16) 0xFF)) p in
  let p := store (u8 (Z.land (Z.shiftr dev_id 24) 0xFF)) p in
  (* Reading ID (little-endian uint32) *)
  let p := store (u8 (Z.land read_id 0xFF)) p in
  let p := store (u8 (Z.land (Z.shiftr read_id 8) 0xFF)) p in
  let p := store (u8 (Z.land (Z.shiftr read_id 16) 0xFF)) p in
  let p := store (u8 (Z.land (Z.shiftr read_id 24) 0xFF)) p in
  (* Temperature (little-endian float32) *)
  let temp_bits := f32_bits temp in
  let p := store (u8 (Z.land temp_bits 0xFF)) p in
  let p := store (u8 (Z.land (Z.shiftr temp_bits 8) 0xFF)) p in
  let p := store (u8 (Z.land (Z.shiftr temp_bits 16) 0xFF)) p in
  let p := store (u8 (Z.land (Z.shiftr temp_bits 24) 0xFF)) p in
  (* Pressure (little-endian float32) *)
  let press_bits := f32_bits pressure in
  let p := store (u8 (Z.land press_bits 0xFF)) p in
  let p := store (u8 (Z.land (Z.shiftr press_bits 8) 0xFF)) p in
  let p := store (u8 (Z.land (Z.shiftr press_bits 16) 0xFF)) p in
  let p := store (u8 (Z.land (Z.shiftr press_bits 24) 0xFF)) p in
  (* Humidity (little-endian float32) *)
  let hum_bits := f32_bits humidity in
  let p := store (u8 (Z.land hum_bits 0xFF)) p in
  let p := store (u8 (Z.land (Z.shiftr hum_bits 8) 0xFF)) p in
  let p := store (u8 (Z.land (Z.shiftr hum_bits 16) 0xFF)) p in
  let p := store (u8 (Z.land (Z.shiftr hum_bits 24) 0xFF)) p in
  buf p.

(** ** The wire format, as the specification words it *)

(** The [n] little-endian bytes of [x]: least significant byte first. *)
Fixpoint le_bytes (n : nat) (x : Z) : list Z :=
  match n with
  | O => []
  | S n => x mod 256 :: le_bytes n (x / 256)
  end.

(** The number a little-endian byte string denotes. *)
Fixpoint le_value (bs : list Z) : Z :=
  match bs with
  | [] => 0
  | b :: bs => b + 256 * le_value bs
  end.

(** The 22-byte layout of the specification, section 4.1. *)
Definition payload_layout (dev_id read_id : Z) (r : sensor_data_t) : list Z :=
  [BLE_MAGIC_0; BLE_MAGIC_1]
  ++ le_bytes 4 dev_id
  ++ le_bytes 4 read_id
  ++ le_bytes 4 (f32_bits (temperature r))
  ++ le_bytes 4 (f32_bits (pressure r))
  ++ le_bytes 4 (f32_bits (humidity r)).

(** The little-endian 32-bit field at byte offset [off]. *)
Definition field32 (off : nat) (payload : list Z) : Z :=
  le_value (take 4 (drop off payload)).

(** The inverse of the layout: the fields at their fixed offsets. *)
Definition decode_manufacturer_data (payload : list Z)
    : option (Z * Z * sensor_data_t) :=
  if decide (length payload = 22%nat
             ∧ payload !! 0%nat = Some BLE_MAGIC_0
             ∧ payload !! 1%nat = Some BLE_MAGIC_1)
  then Some (field32 2 payload, field32 6 payload,
             {| temperature := Float32 (field32 10 payload);
                pressure := Float32 (field32 14 payload);
                humidity := Float32 (field32 18 payload) |})
  else None.

(** ** The controller's state and its environment *)

Inductive HCI_POWER_MODE := HCI_POWER_OFF | HCI_POWER_ON.

(** The calls [ble_advertise.c] makes into BTstack and the CYW43 driver.
    [gap_advertisements_set_data] is handed the address of the static
    [adv_data]; the trace records the content of that array at the call. *)
Inductive radio_call :=
| cyw43_arch_init
| cyw43_arch_deinit
| l2cap_init
| sm_init
| hci_add_event_handler
| hci_power_control (power_mode : HCI_POWER_MODE)
| gap_local_bd_addr
| gap_advertisements_set_params
    (adv_int_min adv_int_max adv_type direct_address_type : Z)
    (direct_address : list Z) (channel_map filter_policy : Z)
| gap_advertisements_set_data (advertising_data_length : Z)
    (advertising_data : list Z)
| gap_advertisements_enable (enabled : Z).

(** The [printf] lines of [ble_advertise.c], with their arguments. *)
Inductive log_line :=
| log_adv_data_too_long (len : Z)
| log_up_and_running
| log_advertising_enabled (dev_id : Z)
| log_already_initialized
| log_cyw43_arch_init_returned (init_result : Z)
| log_initialization_started (dev_id : Z)
| log_waiting_for_btstack
| log_updated_advertisement (read_id : Z) (r : sensor_data_t)
| log_deinitialized.

(** The statics of [ble_advertise.c], the trace of radio calls and the
    console, both in the order of execution. *)
Record state := State {
  ble_initialized : bool;
  device_id : Z;
  reading_id : Z;
  (** [hci_event_callback_registration.callback == &packet_handler] *)
  hci_event_callback_registration : bool;
  adv_data : list Z;
  adv_data_len : Z;
  radio : list radio_call;
  console : list log_line
}.

(** The statics as the C runtime initialises them. *)
Definition initial_state : state := {|
  ble_initialized := false;
  device_id := 0;
  reading_id := 0;
  hci_event_callback_registration := false;
  adv_data := replicate 31 0;
  adv_data_len := 0;
  radio := [];
  console := []
|}.

(** Statements of the C code, as state transformers returning a value. *)
Definition M (A : Type) : Type := state → A * state.

#[global] Instance M_ret : MRet M := λ A (a : A) s, (a, s).
#[global] Instance M_bind : MBind M :=
  λ A B (f : A → M B) (m : M A) s, let (a, s') := m s in f a s'.

Definition gets {A : Type} (f : state → A) : M A := λ s, (f s, s).
Definition modify (f : state → state) : M unit := λ s, (tt, f s).

Definition set_ble_initialized (b : bool) : M unit :=
  modify (λ s, State b (device_id s) (reading_id s)
    (hci_event_callback_registration s) (adv_data s) (adv_data_len s)
    (radio s) (console s)).
Definition set_device_id (v : Z) : M unit :=
  modify (λ s, State (ble_initialized s) v (reading_id s)
    (hci_event_callback_registration s) (adv_data s) (adv_data_len s)
    (radio s) (console s)).
Definition set_reading_id (v : Z) : M unit :=
  modify (λ s, State (ble_initialized s) (device_id s) v
    (hci_event_callback_registration s) (adv_data s) (adv_data_len s)
    (radio s) (console s)).
Definition set_callback (b : bool) : M unit :=
  modify (λ s, State (ble_initialized s) (device_id s) (reading_id s)
    b (adv_data s) (adv_data_len s) (radio s) (console s)).
Definition set_adv_data (d : list Z) : M unit :=
  modify (λ s, State (ble_initialized s) (device_id s) (reading_id s)
    (hci_event_callback_registration s) d (adv_data_len s)
    (radio s) (console s)).
Definition set_adv_data_len (v : Z) : M unit :=
  modify (λ s, State (ble_initialized s) (device_id s) (reading_id s)
    (hci_event_callback_registration s) (adv_data s) v
    (radio s) (console s)).

(** A call into the radio stack. *)
Definition call (c : radio_call) : M unit :=
  modify (λ s, State (ble_initialized s) (device_id s) (reading_id s)
    (hci_event_callback_registration s) (adv_data s) (adv_data_len s)
    (radio s ++ [c]) (console s)).

(** [printf(...)] *)
Definition printf (l : log_line) : M unit :=
  modify (λ s, State (ble_initialized s) (device_id s) (reading_id s)
    (hci_event_callback_registration s) (adv_data s) (adv_data_len s)
    (radio s) (console s ++ [l])).

Section BleAdvertise.
Context `{btstack}.

(** ** The telemetry encoder: the wrapped advertisement structure *)

(** The end of [build_adv_data]: [adv_data_len = p - adv_data;] followed by
    the check against the 31-byte limit. [diff] is the pointer difference;
    [adv_data_len] is a [uint8_t]. *)
Definition store_adv_data_len (diff : Z) : M unit :=
  set_adv_data_len (u8 diff) ;;
  len ← gets adv_data_len;
  (* BLE limitation: max 31 bytes *)
  if 31 <? len then
    printf (log_adv_data_too_long len) ;;
    set_adv_data_len 31
  else mret tt.

(** [build_adv_data]. The local [mfg_data] is not initialised in C;
    [build_manufacturer_data] overwrites all of its 22 cells (lemma
    [build_manufacturer_data_overwrites]), so its content on entry is
    immaterial and taken as zeros. *)
Definition build_adv_data (dev_id read_id : Z)
    (temp pressure humidity : float32) : M unit :=
  data ← gets adv_data;
  let p := Cursor data 0 in
  (* Flags: general discoverable, BR/EDR not supported *)
  let p := store 0x02 p in
  let p := store BLUETOOTH_DATA_TYPE_FLAGS p in
  let p := store 0x06 p in
  (* Manufacturer data: Company ID (2 bytes) + payload (22 bytes) *)
  let mfg_data :=
    build_manufacturer_data (replicate 22 0) dev_id read_id
      temp pressure humidity in
  let p := store 25 p in
  let p := store BLUETOOTH_DATA_TYPE_MANUFACTURER_SPECIFIC_DATA p in
  (* Company ID (little-endian) *)
  let p := store (u8 (Z.land BLE_COMPANY_ID 0xFF)) p in
  let p := store (u8 (Z.land (Z.shiftr BLE_COMPANY_ID 8) 0xFF)) p in
  (* Payload *)
  let p := memcpy mfg_data 22 p in
  let p := advance 22 p in
  set_adv_data (buf p) ;;
  store_adv_data_len (Z.of_nat (pos p)).

(** ** The lifecycle controller *)

Definition ADV_INTERVAL_MIN_MS : Z := 800.
Definition ADV_INTERVAL_MAX_MS : Z := 800.
Definition ADV_TYPE : Z := 0.

(** [packet_handler] *)
Definition packet_handler (packet_type channel : Z) (packet : list Z)
    (size : Z) : M unit :=
  if negb (packet_type =? HCI_EVENT_PACKET) then mret tt else
  let event_type := hci_event_packet_get_type packet in
  if event_type =? BTSTACK_EVENT_STATE then
    if negb (btstack_event_state_get_state packet =? HCI_STATE_WORKING)
    then mret tt
    else
      call gap_local_bd_addr ;;
      printf log_up_and_running ;;
      (* Setup advertisement parameters *)
      let null_addr := replicate 6 0 in
      call (gap_advertisements_set_params ADV_INTERVAL_MIN_MS
              ADV_INTERVAL_MAX_MS ADV_TYPE 0 null_addr 0x07 0x00) ;;
      (* Set initial advertisement data *)
      dev ← gets device_id;
      rid ← gets reading_id;
      build_adv_data dev rid f32_zero f32_zero f32_zero ;;
      len ← gets adv_data_len;
      data ← gets adv_data;
      call (gap_advertisements_set_data len data) ;;
      call (gap_advertisements_enable 1) ;;
      dev ← gets device_id;
      printf (log_advertising_enabled dev) ;;
      set_ble_initialized true
  else mret tt.

(** [ble_advertise_init]. [init_result] is what [cyw43_arch_init()]
    returns. *)
Definition ble_advertise_init (dev_id : Z) (init_result : Z) : M Z :=
  initialized ← gets ble_initialized;
  if (initialized : bool) then
    printf log_already_initialized ;;
    mret 0
  else
    set_device_id dev_id ;;
    set_reading_id 0 ;;
    call cyw43_arch_init ;;
    (if negb (init_result =? 0)
     then printf (log_cyw43_arch_init_returned init_result)
          (* Continue anyway *)
     else mret tt) ;;
    (* Initialize BTstack *)
    call l2cap_init ;;
    call sm_init ;;
    (* Register packet handler *)
    set_callback true ;;
    call hci_add_event_handler ;;
    (* Turn on Bluetooth *)
    call (hci_power_control HCI_POWER_ON) ;;
    dev ← gets device_id;
    printf (log_initialization_started dev) ;;
    printf log_waiting_for_btstack ;;
    mret 0.

(** [ble_advertise_update]. [None] is the null pointer. *)
Definition ble_advertise_update (data : option sensor_data_t) : M Z :=
  initialized ← gets ble_initialized;
  if negb initialized then mret (-1) else
  match data with
  | None => mret (-1)
  | Some d =>
    (* Increment reading ID for each update *)
    rid ← gets reading_id;
    set_reading_id (u32 (rid + 1)) ;;
    (* Build new advertisement data *)
    dev ← gets device_id;
    rid ← gets reading_id;
    build_adv_data dev rid (temperature d) (pressure d) (humidity d) ;;
    (* Update advertisement *)
    len ← gets adv_data_len;
    buffer ← gets adv_data;
    call (gap_advertisements_set_data len buffer) ;;
    rid ← gets reading_id;
    printf (log_updated_advertisement rid d) ;;
    mret 0
  end.

(** [ble_advertise_deinit] *)
Definition ble_advertise_deinit : M unit :=
  initialized ← gets ble_initialized;
  if negb initialized then mret tt else
  call (gap_advertisements_enable 0) ;;
  call (hci_power_control HCI_POWER_OFF) ;;
  call cyw43_arch_deinit ;;
  set_ble_initialized false ;;
  printf log_deinitialized.

(** [ble_advertise_is_ready] *)
Definition ble_advertise_is_ready : M bool := gets ble_initialized.

(** ** The program as its callers and the radio stack drive it *)

Inductive api_call :=
| start (dev_id : Z) (init_result : Z)
| radio_event (packet_type channel : Z) (packet : list Z) (size : Z)
| update (data : option sensor_data_t)
| stop.

(** One call; the result is the C return value, [0] for a [void] function.
    BTstack delivers an event to [packet_handler] once it is registered. *)
Definition step (c : api_call) : M Z :=
  match c with
  | start dev_id init_result => ble_advertise_init dev_id init_result
  | radio_event packet_type channel packet size =>
    registered ← gets hci_event_callback_registration;
    if (registered : bool)
    then packet_handler packet_type channel packet size ;; mret 0
    else mret 0
  | update data => ble_advertise_update data
  | stop => ble_advertise_deinit ;; mret 0
  end.

(** The state after a sequence of calls. *)
Definition run (cs : list api_call) (s : state) : state :=
  foldl (λ s c, (step c s).2) s cs.

(** ** The lifecycle states of the specification *)

Inductive AdvertisingState := Uninitialized | Starting | Active | Stopped.

(** The last power request made to the radio stack, if any. *)
Definition last_power_request (calls : list radio_call)
    : option HCI_POWER_MODE :=
  foldl (λ acc c, match c with
                  | hci_power_control m => Some m
                  | _ => acc
                  end) None calls.

(** The specification's four states, read off the program's state: Active
    once the readiness event has set [ble_initialized]; before that,
    Starting, Stopped or Uninitialized by the last power request. *)
Definition advertising_state (s : state) : AdvertisingState :=
  if ble_initialized s then Active else
  match last_power_request (radio s) with
  | Some HCI_POWER_ON => Starting
  | Some HCI_POWER_OFF => Stopped
  | None => Uninitialized
  end.

(** The bytes the radio broadcasts after [gap_advertisements_set_data]. *)
Definition advertised_bytes (s : state) : list Z :=
  take (Z.to_nat (adv_data_len s)) (adv_data s).

(** The size of [adv_data] is fixed by its declaration. *)
Definition wf_state (s : state) : Prop := length (adv_data s) = 31%nat.

(** ** The wrapped structure, as the specification words it *)

(** Bits of the flags value: LE general discoverable mode, and BR/EDR
    (the classic radio) not supported. *)
Definition FLAG_LE_GENERAL_DISCOVERABLE : Z := 0x02.
Definition FLAG_BR_EDR_NOT_SUPPORTED : Z := 0x04.

(** The flags element: length byte, type tag, flags value. *)
Definition flags_element : list Z :=
  [2; u8 BLUETOOTH_DATA_TYPE_FLAGS;
   Z.lor FLAG_LE_GENERAL_DISCOVERABLE FLAG_BR_EDR_NOT_SUPPORTED].

(** The manufacturer-data element: length byte, type tag, little-endian
    company identifier, payload. The length byte counts what follows it. *)
Definition manufacturer_element (payload : list Z) : list Z :=
  [1 + 2 + Z.of_nat (length payload);
   u8 BLUETOOTH_DATA_TYPE_MANUFACTURER_SPECIFIC_DATA]
  ++ le_bytes 2 BLE_COMPANY_ID
  ++ payload.

(** Section 4.1: the flags element followed by the manufacturer element. *)
Definition adv_layout (dev_id read_id : Z) (r : sensor_data_t) : list Z :=
  flags_element ++ manufacturer_element (payload_layout dev_id read_id r).

(** The statics with [adv_data] and [adv_data_len] replaced. *)
Definition with_adv (d : list Z) (len : Z) (s : state) : state :=
  State (ble_initialized s) (device_id s) (reading_id s)
    (hci_event_callback_registration s) d len (radio s) (console s).

End BleAdvertise.

(** ** Concrete inputs *)

(** The BTstack event "HCI state is now working": event code, parameter
    length, state. *)
Definition stack_ready : api_call := radio_event 0x04 0 [0x60; 0x01; 0x02] 3.

(** The readings of the specification's scenario. *)
Definition reading_1 : sensor_data_t :=
  SensorData (Float32 0x41AC0000) (Float32 0x42CA999A) (Float32 0x42340000).
Definition reading_2 : sensor_data_t :=
  SensorData (Float32 0x41AC6666) (Float32 0x42CA8F5C) (Float32 0x42346666).

(** Started, not yet ready. *)
Definition starting_state : state :=
  @run btstack_defs [start 0xDEADBEEF 0] initial_state.

(** Started and ready. *)
Definition active_state : state :=
  @run btstack_defs [start 0xDEADBEEF 0; stack_ready] initial_state.

(** Started, ready, then stopped. *)
Definition stopped_state : state :=
  @run btstack_defs [start 0xDEADBEEF 0; stack_ready; stop] initial_state.

(** ** bme280_pico_i2c.c: the I2C adapter of the sensor driver *)

(** The result codes of the Bosch driver ([bme280_defs.h]) that the adapter
    and [main] name; the header is not among the sources. *)
Class bme280_defs := {
  BME280_OK : Z;
  BME280_INTF_RET_SUCCESS : Z;
  BME280_E_NULL_PTR : Z;
  BME280_E_COMM_FAIL : Z;
  BME280_E_INVALID_LEN : Z
}.

(** The values the Bosch driver gives them. *)
Definition bosch_defs : bme280_defs := {|
  BME280_OK := 0;
  BME280_INTF_RET_SUCCESS := 0;
  BME280_E_NULL_PTR := -1;
  BME280_E_COMM_FAIL := -2;
  BME280_E_INVALID_LEN := -3
|}.

(** [struct bme280_pico_i2c_context]; [i2c] stands for the [i2c_inst_t *]. *)
Record bme280_pico_i2c_context := I2cContext { i2c : Z; addr : Z }.

(** The calls the adapter makes into the Pico SDK. A transfer records the
    bytes handed to the SDK, its length argument and the [nostop] flag. *)
Inductive sdk_call :=
| i2c_init (instance baudrate : Z)
| gpio_set_function (gpio fn : Z)
| gpio_pull_up (gpio : Z)
| i2c_write_blocking (instance address : Z) (src : list Z) (len : Z)
    (nostop : bool)
| i2c_read_blocking (instance address : Z) (len : Z) (nostop : bool)
| sleep_us (us : Z).

(** The conversion [(int)x] of a [uint32_t], as GCC defines it. *)
Definition to_int (x : Z) : Z :=
  let y := u32 x in if y <? 2 ^ 31 then y else y - 2 ^ 32.

(** What [i2c_read_blocking] leaves in the destination: the bytes received,
    at most [len] of them, over the start of the buffer. *)
Definition receive (received : list Z) (len : Z) (dst : list Z) : list Z :=
  let r := take (Z.to_nat len) received in
  r ++ drop (length r) dst.

Section Bme280PicoI2c.
Context `{bme280_defs}.

(** [bme280_pico_i2c_read]. [None] is a null pointer; [write_ret] and
    [read_ret] are what the two SDK transfers return, [received] the bytes
    the second one delivers. The result is the return value, the content of
    [reg_data] on return and the SDK calls made. *)
Definition bme280_pico_i2c_read (reg_addr : Z) (reg_data : option (list Z))
    (len : Z) (intf_ptr : option bme280_pico_i2c_context)
    (write_ret read_ret : Z) (received : list Z)
    : Z * option (list Z) * list sdk_call :=
  match intf_ptr, reg_data with
  | None, _ | _, None => (BME280_E_NULL_PTR, reg_data, [])
  | Some ctx, Some data =>
    (* Write register address, then read data *)
    let ret := write_ret in
    let calls := [i2c_write_blocking (i2c ctx) (addr ctx) [reg_addr] 1 true] in
    if negb (ret =? 1) then (BME280_E_COMM_FAIL, Some data, calls) else
    let ret := read_ret in
    let calls := calls ++ [i2c_read_blocking (i2c ctx) (addr ctx) len false] in
    let data := receive received len data in
    if negb (ret =? to_int len) then (BME280_E_COMM_FAIL, Some data, calls)
    else (BME280_INTF_RET_SUCCESS, Some data, calls)
  end.

(** [bme280_pico_i2c_write]. The local [buf] is not initialised in C; the
    cells the transfer reads are all written first when [reg_data] holds
    [len] bytes. [write_ret] is what the SDK transfer returns. *)
Definition bme280_pico_i2c_write (reg_addr : Z) (reg_data : option (list Z))
    (len : Z) (intf_ptr : option bme280_pico_i2c_context) (write_ret : Z)
    : Z * list sdk_call :=
  match intf_ptr, reg_data with
  | None, _ | _, None => (BME280_E_NULL_PTR, [])
  | Some ctx, Some data =>
    (* Allocate buffer for register address + data *)
    let buffer := replicate 21 0 in
    if 20 <? len then (BME280_E_INVALID_LEN, []) else
    let buffer := <[0%nat := reg_addr]> buffer in
    let buffer :=
      foldl (λ b i, match data !! i with
                    | Some v => <[S i := v]> b
                    | None => b
                    end) buffer (seq 0 (Z.to_nat len)) in
    let ret := write_ret in
    let calls :=
      [i2c_write_blocking (i2c ctx) (addr ctx)
         (take (Z.to_nat (u32 (len + 1))) buffer) (u32 (len + 1)) false] in
    if negb (ret =? to_int (u32 (len + 1))) then (BME280_E_COMM_FAIL, calls)
    else (BME280_INTF_RET_SUCCESS, calls)
  end.

(** [bme280_pico_delay_us] *)
Definition bme280_pico_delay_us (period : Z)
    (intf_ptr : option bme280_pico_i2c_context) : list sdk_call :=
  [sleep_us period].

(** [bme280_pico_i2c_init]: the context on return and the SDK calls made.
    [GPIO_FUNC_I2C] is a constant of the SDK. *)
Definition bme280_pico_i2c_init (GPIO_FUNC_I2C : Z)
    (i2c_instance i2c_addr sda_pin scl_pin i2c_freq : Z)
    : bme280_pico_i2c_context * list sdk_call :=
  let ctx := {| i2c := i2c_instance; addr := i2c_addr |} in
  (ctx, [i2c_init (i2c ctx) i2c_freq;
         gpio_set_function sda_pin GPIO_FUNC_I2C;
         gpio_set_function scl_pin GPIO_FUNC_I2C;
         gpio_pull_up sda_pin;
         gpio_pull_up scl_pin]).

End Bme280PicoI2c.

(** ** main.c: the LED, the BLE start-up and the polling loop (Pico W) *)

Definition LED_PIN : Z := 0.

(** What [main] calls outside [ble_advertise.c], as far as modelled here. *)
Inductive main_call :=
| gpio_init (gpio : Z)
| gpio_set_dir (gpio : Z) (out : Z)
| gpio_put (gpio : Z) (value : bool)
| async_context_poll
| async_context_wait_for_work_until (until : Z)
| bme280_get_sensor_data
| make_timeout_time_ms.

(** The [printf] lines of the modelled part of [main]. *)
Inductive main_line :=
| line_initializing_ble
| line_ble_init_failed (rc : Z)
| line_ble_init_ok
| line_temperature (t : float32)
| line_pressure (p : float32)
| line_humidity (h : float32)
| line_separator
| line_failed_to_read (rslt : Z).

(** The locals of [main] that the loop uses, the BLE module's state, the
    calls made and the lines printed by [main] itself (those of the BLE
    module are in [console (ble m)]). *)
Record main_state := MainState {
  ble : state;
  led_state : bool;
  next_sensor_read : Z;
  calls : list main_call;
  lines : list main_line
}.

(** An event BTstack has for its handlers. *)
Record hci_packet := HciPacket {
  pkt_type : Z;
  pkt_channel : Z;
  pkt_bytes : list Z;
  pkt_size : Z
}.

(** What one turn of the loop gets from outside: the events the async
    context has pending, whether the deadline is reached, the result of the
    sensor read with the three values converted to [float] (the driver and
    the float arithmetic are not modelled), and the next deadline. *)
Record loop_input := LoopInput {
  pending : list hci_packet;
  time_reached : bool;
  rslt : Z;
  converted : sensor_data_t;
  timeout : Z
}.

Section Main.
Context `{btstack} `{bme280_defs}.

(** [led_init] *)
Definition led_init (GPIO_OUT : Z) (m : main_state) : main_state :=
  MainState (ble m) (led_state m) (next_sensor_read m)
    (calls m ++ [gpio_init LED_PIN; gpio_set_dir LED_PIN GPIO_OUT;
                 gpio_put LED_PIN false])
    (lines m).

(** [led_set] *)
Definition led_set (on : bool) (m : main_state) : main_state :=
  MainState (ble m) (led_state m) (next_sensor_read m)
    (calls m ++ [gpio_put LED_PIN on]) (lines m).

Definition main_printf (l : main_line) (m : main_state) : main_state :=
  MainState (ble m) (led_state m) (next_sensor_read m) (calls m)
    (lines m ++ [l]).

Definition main_call_sdk (c : main_call) (m : main_state) : main_state :=
  MainState (ble m) (led_state m) (next_sensor_read m) (calls m ++ [c])
    (lines m).

Definition with_ble (s : state) (m : main_state) : main_state :=
  MainState s (led_state m) (next_sensor_read m) (calls m) (lines m).

(** The BLE start-up of [main] (Pico W): [ble_advertise_init(DEVICE_ID)] and
    the test of its result. The macro's value is converted to the
    [uint32_t] of the parameter at the call. *)
Definition main_ble_init (DEVICE_ID : Z) (init_result : Z) (m : main_state)
    : main_state :=
  let m := main_printf line_initializing_ble m in
  let (rc, s) := ble_advertise_init (u32 DEVICE_ID) init_result (ble m) in
  let m := with_ble s m in
  if negb (rc =? 0) then main_printf (line_ble_init_failed rc) m
  else main_printf line_ble_init_ok m.

(** The events the async context hands to BTstack's handlers. *)
Definition deliver (ps : list hci_packet) (s : state) : state :=
  run (map (λ p, radio_event (pkt_type p) (pkt_channel p) (pkt_bytes p)
                   (pkt_size p)) ps) s.

(** The body of the [while (1)] loop of [main]. *)
Definition loop_body (i : loop_input) (m : main_state) : main_state :=
  (* Poll async context for BLE events *)
  let m := main_call_sdk async_context_poll m in
  let m := main_call_sdk
             (async_context_wait_for_work_until (next_sensor_read m)) m in
  let m := with_ble (deliver (pending i) (ble m)) m in
  (* Check if it's time to read sensor *)
  if time_reached i then
    (* Toggle LED to show activity *)
    let m := MainState (ble m) (negb (led_state m)) (next_sensor_read m)
               (calls m) (lines m) in
    let m := led_set (led_state m) m in
    (* Read compensated sensor data *)
    let m := main_call_sdk bme280_get_sensor_data m in
    let m :=
      if rslt i =? BME280_OK then
        let r := converted i in
        let m := main_printf (line_temperature (temperature r)) m in
        let m := main_printf (line_pressure (pressure r)) m in
        let m := main_printf (line_humidity (humidity r)) m in
        let m := main_printf line_separator m in
        (* Update BLE advertisement with sensor data *)
        if (ble_advertise_is_ready (ble m)).1 then
          let sensor_data :=
            {| temperature := temperature r;
               pressure := pressure r;
               humidity := humidity r |} in
          with_ble (ble_advertise_update (Some sensor_data) (ble m)).2 m
        else m
      else main_printf (line_failed_to_read (rslt i)) m in
    (* Schedule next sensor read *)
    let m := main_call_sdk make_timeout_time_ms m in
    MainState (ble m) (led_state m) (timeout i) (calls m) (lines m)
  else m.


End Main.

(** The lengths passed to [gap_advertisements_set_data] in a trace. *)
Definition set_data_lengths (calls : list radio_call) : list Z :=
  omap (λ c, match c with
             | gap_advertisements_set_data len _ => Some len
             | _ => None
             end) calls.

(** What every call keeps true of the BLE module's state: [adv_data] has its
    declared size, [adv_data_len] is 0 or 29, [reading_id] is a [uint32_t],
    every length handed to the radio stack was 29, and while the module is
    ready the handler is registered and the structure on air is the layout
    for the current [device_id] and [reading_id]. *)
Definition ble_invariant `{btstack} (s : state) : Prop :=
  wf_state s
  ∧ (adv_data_len s = 0 ∨ adv_data_len s = 29)
  ∧ is_uint32 (reading_id s)
  ∧ Forall (λ len, len = 29) (set_data_lengths (radio s))
  ∧ (ble_initialized s = true →
     hci_event_callback_registration s = true
     ∧ ∃ r, advertised_bytes s = adv_layout (device_id s) (reading_id s) r).

(** The event [packet_handler] acts on: an HCI event packet carrying a
    BTstack state event whose state is "working". *)
Definition stack_is_working `{btstack} (packet_type : Z) (packet : list Z)
    : bool :=
  (packet_type =? HCI_EVENT_PACKET)
  && (hci_event_packet_get_type packet =? BTSTACK_EVENT_STATE)
  && (btstack_event_state_get_state packet =? HCI_STATE_WORKING).

(** [main] at the start of its loop, before any BLE call. *)
Definition main_initial : main_state :=
  MainState initial_state false 0 [] [].

(** [main] at the start of a turn with the BLE module ready. *)
Definition main_active : main_state :=
  MainState active_state true 10000000 [] [].

(** A turn: the deadline is reached, the sensor read succeeds, the readiness
    event is pending. *)
Definition turn_ready_and_due : loop_input :=
  LoopInput [HciPacket 0x04 0 [0x60; 0x01; 0x02] 3] true 0 reading_1 20000000.

(** A turn: the deadline is reached, the sensor read fails with -2. *)
Definition turn_sensor_failed : loop_input :=
  LoopInput [] true (-2) reading_1 20000000.

(** A turn before the deadline, with an event that is not a state event. *)
Definition turn_not_due : loop_input :=
  LoopInput [HciPacket 0x04 0 [0x0E; 0x01; 0x00] 3] false 0 reading_1 0.

(** ** Bytes of a word *)

Arguments u8 : simpl never.
Arguments u32 : simpl never.

Lemma u8_idemp x : u8 (u8 x) = u8 x.
Proof. unfold u8. apply Z.mod_mod. lia. Qed.

Lemma u8_range x : is_uint8 (u8 x).
Proof. unfold is_uint8, u8. apply Z.mod_pos_bound. lia. Qed.

Lemma u8_small x : is_uint8 x → u8 x = x.
Proof. unfold is_uint8, u8. intros. apply Z.mod_small. lia. Qed.

Lemma land_0xFF x : Z.land x 0xFF = x mod 256.
Proof. change 0xFF with (Z.ones 8). rewrite Z.land_ones by lia. reflexivity. Qed.

Lemma byte0_of x : u8 (u8 (Z.land x 0xFF)) = x mod 256.
Proof. rewrite u8_idemp, land_0xFF. unfold u8. apply Z.mod_mod. lia. Qed.

Lemma byte1_of x : u8 (u8 (Z.land (Z.shiftr x 8) 0xFF)) = x / 256 mod 256.
Proof. rewrite byte0_of, Z.shiftr_div_pow2 by lia. reflexivity. Qed.

Lemma byte2_of x :
  u8 (u8 (Z.land (Z.shiftr x 16) 0xFF)) = x / 256 / 256 mod 256.
Proof.
  rewrite byte0_of, Z.shiftr_div_pow2 by lia.
  rewrite Z.div_div by lia. reflexivity.
Qed.

Lemma byte3_of x :
  u8 (u8 (Z.land (Z.shiftr x 24) 0xFF)) = x / 256 / 256 / 256 mod 256.
Proof.
  rewrite byte0_of, Z.shiftr_div_pow2 by lia.
  rewrite !Z.div_div by lia. reflexivity.
Qed.

Lemma le_bytes_length n x : length (le_bytes n x) = n.
Proof. revert x. induction n as [|n IH]; intros x; simpl; [|rewrite IH]; reflexivity. Qed.

(** Little-endian bytes denote the word they were cut from. *)
Lemma le_value_le_bytes n x :
  le_value (le_bytes n x) = x mod 2 ^ (8 * Z.of_nat n).
Proof.
  revert x. induction n as [|n IH]; intros x.
  - simpl. rewrite Z.mod_1_r. reflexivity.
  - cbn [le_bytes le_value]. rewrite IH.
    replace (8 * Z.of_nat (S n)) with (8 + 8 * Z.of_nat n) by lia.
    rewrite Z.pow_add_r by lia. change (2 ^ 8) with 256.
    rewrite Z.rem_mul_r by lia. reflexivity.
Qed.

Lemma le_value_le_bytes_u32 x : is_uint32 x → le_value (le_bytes 4 x) = x.
Proof.
  intros Hx. rewrite le_value_le_bytes. apply Z.mod_small. exact Hx.
Qed.

(** ** The manufacturer payload *)

Ltac bytes_of_words :=
  rewrite ?byte3_of, ?byte2_of, ?byte1_of, ?byte0_of.

Lemma build_manufacturer_data_bytes buffer dev_id read_id temp pressure humidity :
  length buffer = 22%nat →
  build_manufacturer_data buffer dev_id read_id temp pressure humidity
  = payload_layout dev_id read_id (SensorData temp pressure humidity).
Proof.
  intros Hlen.
  do 22 (destruct buffer as [|? buffer]; [discriminate|]).
  destruct buffer; [|discriminate].
  cbv [build_manufacturer_data store buf pos insert list_insert].
  bytes_of_words. reflexivity.
Qed.

(** The callee writes every cell: the content on entry does not matter. *)
Lemma build_manufacturer_data_overwrites b1 b2 dev_id read_id temp pressure humidity :
  length b1 = 22%nat → length b2 = 22%nat →
  build_manufacturer_data b1 dev_id read_id temp pressure humidity
  = build_manufacturer_data b2 dev_id read_id temp pressure humidity.
Proof.
  intros H1 H2. rewrite !build_manufacturer_data_bytes by assumption.
  reflexivity.
Qed.

Lemma payload_layout_length dev_id read_id r :
  length (payload_layout dev_id read_id r) = 22%nat.
Proof. reflexivity. Qed.

(** C1: for every device_id, reading_id and reading, the encoder fills the
    caller's 22-byte array with exactly the 2-byte magic constant, then
    device_id, reading_id, and the bit patterns of temperature, pressure and
    humidity, each as four little-endian bytes, in that order. *)
Theorem manufacturer_payload_layout
    (buffer : list Z) (dev_id read_id : Z) (temp pressure humidity : float32) :
  length buffer = 22%nat →
  let payload :=
    build_manufacturer_data buffer dev_id read_id temp pressure humidity in
  length payload = 22%nat
  ∧ payload = [0x01; 0xD0]
              ++ le_bytes 4 dev_id
              ++ le_bytes 4 read_id
              ++ le_bytes 4 (f32_bits temp)
              ++ le_bytes 4 (f32_bits pressure)
              ++ le_bytes 4 (f32_bits humidity)
  ∧ le_value (le_bytes 4 dev_id) = dev_id mod 2 ^ 32
  ∧ le_value (le_bytes 4 read_id) = read_id mod 2 ^ 32
  ∧ le_value (le_bytes 4 (f32_bits temp)) = f32_bits temp mod 2 ^ 32
  ∧ le_value (le_bytes 4 (f32_bits pressure)) = f32_bits pressure mod 2 ^ 32
  ∧ le_value (le_bytes 4 (f32_bits humidity)) = f32_bits humidity mod 2 ^ 32.
Proof.
  intros Hlen payload. subst payload.
  rewrite build_manufacturer_data_bytes by exact Hlen.
  split; [reflexivity|]. split; [reflexivity|].
  repeat split; apply (le_value_le_bytes 4).
Qed.

Lemma manufacturer_payload_layout_witness :
  build_manufacturer_data (replicate 22 0) 0xDEADBEEF 1
    (Float32 0x41AC0000) f32_quiet_nan f32_neg_inf
  = [0x01; 0xD0; 0xEF; 0xBE; 0xAD; 0xDE; 0x01; 0x00; 0x00; 0x00;
     0x00; 0x00; 0xAC; 0x41; 0x00; 0x00; 0xC0; 0x7F; 0x00; 0x00; 0x80; 0xFF].
Proof.
  pose proof (manufacturer_payload_layout (replicate 22 0) 0xDEADBEEF 1
                (Float32 0x41AC0000) f32_quiet_nan f32_neg_inf eq_refl) as H.
  cbv zeta in H. destruct H as (_ & H & _). rewrite H. reflexivity.
Defined.

Lemma field32_at pre x post :
  field32 (length pre) (pre ++ le_bytes 4 x ++ post) = x mod 2 ^ 32.
Proof.
  unfold field32. rewrite drop_app_length.
  rewrite (take_app_length' (le_bytes 4 x) post 4) by reflexivity.
  apply (le_value_le_bytes 4).
Qed.

Lemma decode_payload_layout dev_id read_id r :
  decode_manufacturer_data (payload_layout dev_id read_id r)
  = Some (u32 dev_id, u32 read_id,
          {| temperature := Float32 (u32 (f32_bits (temperature r)));
             pressure := Float32 (u32 (f32_bits (pressure r)));
             humidity := Float32 (u32 (f32_bits (humidity r))) |}).
Proof.
  unfold decode_manufacturer_data.
  rewrite decide_True by (repeat split; reflexivity).
  unfold payload_layout.
  set (m := [BLE_MAGIC_0; BLE_MAGIC_1]).
  set (a := le_bytes 4 dev_id). set (b := le_bytes 4 read_id).
  set (c := le_bytes 4 (f32_bits (temperature r))).
  set (d := le_bytes 4 (f32_bits (pressure r))).
  set (e := le_bytes 4 (f32_bits (humidity r))).
  assert (H2 : field32 2 (m ++ a ++ b ++ c ++ d ++ e) = u32 dev_id)
    by apply (field32_at m).
  assert (H6 : field32 6 (m ++ a ++ b ++ c ++ d ++ e) = u32 read_id).
  { rewrite (app_assoc m a). apply (field32_at (m ++ a)). }
  assert (H10 : field32 10 (m ++ a ++ b ++ c ++ d ++ e)
                = u32 (f32_bits (temperature r))).
  { rewrite (app_assoc a b), (app_assoc m (a ++ b)).
    apply (field32_at (m ++ a ++ b)). }
  assert (H14 : field32 14 (m ++ a ++ b ++ c ++ d ++ e)
                = u32 (f32_bits (pressure r))).
  { rewrite (app_assoc b c), (app_assoc a (b ++ c)),
      (app_assoc m (a ++ b ++ c)).
    apply (field32_at (m ++ a ++ b ++ c)). }
  assert (H18 : field32 18 (m ++ a ++ b ++ c ++ d ++ e)
                = u32 (f32_bits (humidity r))).
  { rewrite (app_assoc c d), (app_assoc b (c ++ d)),
      (app_assoc a (b ++ c ++ d)), (app_assoc m (a ++ b ++ c ++ d)).
    rewrite <- (app_nil_r e).
    apply (field32_at (m ++ a ++ b ++ c ++ d) _ []). }
  rewrite H2, H6, H10, H14, H18. reflexivity.
Qed.

Lemma u32_small x : is_uint32 x → u32 x = x.
Proof. unfold is_uint32, u32. intros. apply Z.mod_small. lia. Qed.

(** C8: for every device_id and reading_id in the range of [uint32_t] and
    every three float32 values, reading the fields of the 22-byte payload
    back at their fixed little-endian offsets gives the original device_id,
    reading_id and the bit patterns of the three floats. *)
Theorem manufacturer_payload_round_trip
    (buffer : list Z) (dev_id read_id : Z) (temp pressure humidity : float32) :
  length buffer = 22%nat →
  is_uint32 dev_id → is_uint32 read_id →
  is_float32 temp → is_float32 pressure → is_float32 humidity →
  decode_manufacturer_data
    (build_manufacturer_data buffer dev_id read_id temp pressure humidity)
  = Some (dev_id, read_id, SensorData temp pressure humidity).
Proof.
  intros Hlen Hdev Hrid Ht Hp Hh.
  rewrite build_manufacturer_data_bytes by exact Hlen.
  rewrite decode_payload_layout. simpl.
  rewrite !u32_small by assumption.
  destruct temp, pressure, humidity. reflexivity.
Qed.

Lemma manufacturer_payload_round_trip_witness :
  decode_manufacturer_data
    (build_manufacturer_data (replicate 22 0) 0xDEADBEEF 0xFFFFFFFF
       f32_quiet_nan f32_neg_inf f32_min_subnormal)
  = Some (0xDEADBEEF, 0xFFFFFFFF,
          SensorData f32_quiet_nan f32_neg_inf f32_min_subnormal).
Proof.
  apply (manufacturer_payload_round_trip (replicate 22 0) 0xDEADBEEF 0xFFFFFFFF
           f32_quiet_nan f32_neg_inf f32_min_subnormal);
    [reflexivity | unfold is_float32, is_uint32; simpl; lia ..].
Defined.

(** ** The wrapped advertisement structure *)

(** Run the statements of a C function body on a state. *)
Ltac run_M :=
  cbv [mbind mret M_bind M_ret gets modify set_ble_initialized set_device_id
       set_reading_id set_callback set_adv_data set_adv_data_len call printf];
  cbn [ble_initialized device_id reading_id hci_event_callback_registration
       adv_data adv_data_len radio console fst snd].

Section Encoder.
Context `{btstack}.

Lemma store_adv_data_len_fits diff s :
  0 <= diff <= 31 →
  store_adv_data_len diff s = (tt, with_adv (adv_data s) diff s).
Proof.
  intros Hd. unfold store_adv_data_len. run_M.
  rewrite u8_small by (unfold is_uint8; lia).
  destruct (Z.ltb_spec 31 diff) as [Hlt|_]; [lia|]. reflexivity.
Qed.

Lemma build_adv_data_spec dev_id read_id temp pressure humidity s :
  wf_state s →
  build_adv_data dev_id read_id temp pressure humidity s
  = (tt, with_adv (adv_layout dev_id read_id (SensorData temp pressure humidity)
                   ++ drop 29 (adv_data s)) 29 s).
Proof.
  unfold wf_state. intros Hlen. destruct s as [ini dev rid cb data len rd con].
  cbn [adv_data] in Hlen.
  do 31 (destruct data as [|? data]; [discriminate|]).
  destruct data; [|discriminate].
  unfold build_adv_data.
  rewrite build_manufacturer_data_bytes by reflexivity.
  run_M.
  cbv [store memcpy advance buf pos insert list_insert foldl seq lookup
       list_lookup Nat.add payload_layout le_bytes app].
  rewrite store_adv_data_len_fits by (simpl; lia).
  reflexivity.
Qed.

(** Whatever the state, [build_adv_data] touches only [adv_data] and
    [adv_data_len], and the pointer ends 29 cells after the start. *)
Lemma build_adv_data_frame dev_id read_id temp pressure humidity s :
  ∃ d, build_adv_data dev_id read_id temp pressure humidity s
       = (tt, with_adv d 29 s)
       ∧ length d = length (adv_data s).
Proof.
  unfold build_adv_data. run_M. cbn [pos store memcpy advance Nat.add].
  rewrite store_adv_data_len_fits by (simpl; lia).
  eexists. split; [reflexivity|].
  cbn [adv_data buf store memcpy advance pos].
  set (f := λ dst i, match _ !! i with Some v => _ | None => dst end).
  assert (Hf : ∀ l (d : list Z), length (foldl f d l) = length d).
  { induction l as [|i l IH]; intros d; [reflexivity|].
    cbn [foldl]. rewrite IH. unfold f.
    destruct (_ !! i); [apply length_insert | reflexivity]. }
  rewrite Hf, !length_insert. reflexivity.
Qed.

Lemma build_adv_data_len dev_id read_id temp pressure humidity s :
  adv_data_len (build_adv_data dev_id read_id temp pressure humidity s).2 = 29.
Proof.
  destruct (build_adv_data_frame dev_id read_id temp pressure humidity s)
    as (d & -> & _). reflexivity.
Qed.

Lemma adv_layout_bytes dev_id read_id r :
  adv_layout dev_id read_id r
  = [0x02; u8 BLUETOOTH_DATA_TYPE_FLAGS; 0x06]
    ++ [25; u8 BLUETOOTH_DATA_TYPE_MANUFACTURER_SPECIFIC_DATA; 0xFF; 0xFF]
    ++ payload_layout dev_id read_id r.
Proof. reflexivity. Qed.

Lemma adv_layout_length dev_id read_id r :
  length (adv_layout dev_id read_id r) = 29%nat.
Proof. reflexivity. Qed.

Lemma advertised_bytes_with_adv l rest s :
  advertised_bytes (with_adv (l ++ rest) (Z.of_nat (length l)) s) = l.
Proof.
  unfold advertised_bytes, with_adv. cbn [adv_data adv_data_len].
  rewrite Nat2Z.id. apply take_app_length.
Qed.

(** C2 (as amended): for every input, the wrapped structure built by the
    encoder is the 3-byte flags element (length byte 2, flags type tag, flags
    value general-discoverable with no classic-radio support) followed by the
    manufacturer-data element (length byte 25 = 1 + 2 + 22, type tag,
    little-endian company identifier, 22-byte payload); the manufacturer
    element takes 26 bytes and the total length reported is 29 bytes. *)
Theorem adv_structure_layout
    (s : state) (dev_id read_id : Z) (temp pressure humidity : float32) :
  wf_state s →
  let s' := (build_adv_data dev_id read_id temp pressure humidity s).2 in
  let payload :=
    build_manufacturer_data (replicate 22 0) dev_id read_id
      temp pressure humidity in
  advertised_bytes s'
  = [0x02; u8 BLUETOOTH_DATA_TYPE_FLAGS;
     Z.lor FLAG_LE_GENERAL_DISCOVERABLE FLAG_BR_EDR_NOT_SUPPORTED]
    ++ [25; u8 BLUETOOTH_DATA_TYPE_MANUFACTURER_SPECIFIC_DATA]
    ++ le_bytes 2 BLE_COMPANY_ID
    ++ payload
  ∧ 25 = 1 + 2 + Z.of_nat (length payload)
  ∧ length (manufacturer_element payload) = 26%nat
  ∧ adv_data_len s' = 29
  ∧ length (advertised_bytes s') = 29%nat
  ∧ wf_state s'.
Proof.
  intros Hwf s' payload. subst s' payload.
  rewrite build_adv_data_spec by exact Hwf.
  rewrite build_manufacturer_data_bytes by reflexivity.
  cbn [snd].
  pose proof (advertised_bytes_with_adv
                (adv_layout dev_id read_id (SensorData temp pressure humidity))
                (drop 29 (adv_data s)) s) as Hb.
  rewrite adv_layout_length in Hb. change (Z.of_nat 29) with 29 in Hb.
  rewrite Hb. repeat split.
  unfold wf_state, with_adv. cbn [adv_data].
  rewrite length_app, length_drop, adv_layout_length.
  unfold wf_state in Hwf. rewrite Hwf. reflexivity.
Qed.

End Encoder.

Lemma adv_structure_layout_witness :
  advertised_bytes
    (@build_adv_data btstack_defs 0xDEADBEEF 1
       (Float32 0x41AC0000) (Float32 0x42CA999A) (Float32 0x42340000)
       initial_state).2
  = [0x02; 0x01; 0x06;
     25; 0xFF; 0xFF; 0xFF;
     0x01; 0xD0; 0xEF; 0xBE; 0xAD; 0xDE; 0x01; 0x00; 0x00; 0x00;
     0x00; 0x00; 0xAC; 0x41; 0x9A; 0x99; 0xCA; 0x42; 0x00; 0x00; 0x34; 0x42].
Proof.
  pose proof (@adv_structure_layout btstack_defs initial_state 0xDEADBEEF 1
                (Float32 0x41AC0000) (Float32 0x42CA999A) (Float32 0x42340000)
                eq_refl) as Hl.
  cbv zeta in Hl. destruct Hl as (Hl & _). rewrite Hl. reflexivity.
Defined.

(** C2, as the specification states it, fails: the structure built for
    device 0xDEADBEEF, reading 1 and three ordinary floats is reported as
    29 bytes long, not 30. *)
Lemma adv_structure_length_is_not_30 :
  adv_data_len
    (@build_adv_data btstack_defs 0xDEADBEEF 1
       (Float32 0x41AC0000) (Float32 0x42CA999A) (Float32 0x42340000)
       initial_state).2 = 29
  ∧ adv_data_len
      (@build_adv_data btstack_defs 0xDEADBEEF 1
         (Float32 0x41AC0000) (Float32 0x42CA999A) (Float32 0x42340000)
         initial_state).2 ≠ 30.
Proof. split; [reflexivity | discriminate]. Qed.

Example f32_special_values :
  f32_is_nan f32_quiet_nan = true
  ∧ f32_is_inf f32_pos_inf = true ∧ f32_sign f32_pos_inf = 0
  ∧ f32_is_inf f32_neg_inf = true ∧ f32_sign f32_neg_inf = 1
  ∧ f32_is_subnormal f32_min_subnormal = true.
Proof. repeat split. Qed.

(** C5: for every device_id, reading_id and every triple of float32 bit
    patterns (NaN, the infinities and subnormals among them), and whatever
    the buffer held before, the length the encoder reports for the wrapped
    structure, and the number of bytes broadcast, is at most 31. *)
Theorem adv_structure_within_budget `{btstack}
    (s : state) (dev_id read_id : Z) (temp pressure humidity : float32) :
  let s' := (build_adv_data dev_id read_id temp pressure humidity s).2 in
  adv_data_len s' <= 31
  ∧ (length (advertised_bytes s') <= 31)%nat.
Proof.
  intros s'. subst s'.
  pose proof (build_adv_data_len dev_id read_id temp pressure humidity s) as Hl.
  split; [lia|].
  unfold advertised_bytes. rewrite Hl, length_take. lia.
Qed.

(** ** The lifecycle controller *)

Section Lifecycle.
Context `{btstack}.

Lemma active_iff s : advertising_state s = Active ↔ ble_initialized s = true.
Proof.
  unfold advertising_state. destruct (ble_initialized s); [tauto|].
  split; [|discriminate].
  destruct (last_power_request (radio s)) as [[]|]; discriminate.
Qed.

Lemma not_active_iff s :
  advertising_state s ≠ Active ↔ ble_initialized s = false.
Proof.
  rewrite active_iff. destruct (ble_initialized s); split; congruence.
Qed.

(** [ble_advertise_init] when [ble_initialized] is set. *)
Lemma init_when_initialized dev_id init_result s :
  ble_initialized s = true →
  ble_advertise_init dev_id init_result s
  = (0, State true (device_id s) (reading_id s)
          (hci_event_callback_registration s) (adv_data s) (adv_data_len s)
          (radio s) (console s ++ [log_already_initialized])).
Proof.
  intros Hi. destruct s as [ini dev rid cb data len rd con].
  cbn [ble_initialized] in Hi. subst ini. reflexivity.
Qed.

(** [ble_advertise_init] when [ble_initialized] is clear. *)
Lemma init_when_not_initialized dev_id init_result s :
  ble_initialized s = false →
  ble_advertise_init dev_id init_result s
  = (0, State false dev_id 0 true (adv_data s) (adv_data_len s)
          (radio s ++ [cyw43_arch_init; l2cap_init; sm_init;
                       hci_add_event_handler;
                       hci_power_control HCI_POWER_ON])
          (console s
           ++ (if init_result =? 0 then []
               else [log_cyw43_arch_init_returned init_result])
           ++ [log_initialization_started dev_id;
               log_waiting_for_btstack])).
Proof.
  intros Hi. destruct s as [ini dev rid cb data len rd con].
  cbn [ble_initialized] in Hi. subst ini.
  unfold ble_advertise_init. run_M.
  destruct (init_result =? 0); cbn [negb]; run_M;
    rewrite <- ?app_assoc; reflexivity.
Qed.

Lemma update_when_not_initialized data s :
  ble_initialized s = false → ble_advertise_update data s = (-1, s).
Proof.
  intros Hi. unfold ble_advertise_update. run_M. rewrite Hi. reflexivity.
Qed.

Lemma update_null s : ble_advertise_update None s = (-1, s).
Proof.
  unfold ble_advertise_update. run_M.
  destruct (ble_initialized s); reflexivity.
Qed.

(** A call of [ble_advertise_update] that gets past its two checks. *)
Lemma update_when_initialized d s :
  ble_initialized s = true →
  ∃ data,
    ble_advertise_update (Some d) s
    = (0, State true (device_id s) (u32 (reading_id s + 1))
            (hci_event_callback_registration s) data 29
            (radio s ++ [gap_advertisements_set_data 29 data])
            (console s
             ++ [log_updated_advertisement (u32 (reading_id s + 1)) d]))
    ∧ length data = length (adv_data s)
    ∧ data = adv_data
               (build_adv_data (device_id s) (u32 (reading_id s + 1))
                  (temperature d) (pressure d) (humidity d) s).2.
Proof.
  intros Hi. unfold ble_advertise_update. run_M. rewrite Hi. cbn [negb].
  match goal with
  | |- context [build_adv_data ?a ?b ?c ?e ?f ?st] =>
      destruct (build_adv_data_frame a b c e f st) as (data & Hb & Hlen);
      rewrite Hb
  end.
  destruct (build_adv_data_frame (device_id s) (u32 (reading_id s + 1))
              (temperature d) (pressure d) (humidity d) s)
    as (data' & Hb' & _).
  rewrite Hb'. unfold with_adv. run_M.
  exists data. split; [rewrite Hi; reflexivity|]. split; [exact Hlen|].
  unfold build_adv_data in Hb, Hb'. revert Hb Hb'. run_M.
  rewrite !store_adv_data_len_fits by (simpl; lia).
  unfold with_adv. cbn [adv_data]. congruence.
Qed.

Lemma deinit_when_not_initialized s :
  ble_initialized s = false → ble_advertise_deinit s = (tt, s).
Proof.
  intros Hi. unfold ble_advertise_deinit. run_M. rewrite Hi. reflexivity.
Qed.

Lemma deinit_when_initialized s :
  ble_initialized s = true →
  ble_advertise_deinit s
  = (tt, State false (device_id s) (reading_id s)
           (hci_event_callback_registration s) (adv_data s) (adv_data_len s)
           (radio s ++ [gap_advertisements_enable 0;
                        hci_power_control HCI_POWER_OFF;
                        cyw43_arch_deinit])
           (console s ++ [log_deinitialized])).
Proof.
  intros Hi. unfold ble_advertise_deinit. run_M. rewrite Hi. cbn [negb].
  run_M. rewrite <- ?app_assoc. reflexivity.
Qed.

End Lifecycle.

Section LifecycleProperties.
Context `{btstack}.

Lemma run_cons c cs s : run (c :: cs) s = run cs (step c s).2.
Proof. reflexivity. Qed.

(** A run of updates keeps the controller initialised and counts them. *)
Lemma run_updates ds : ∀ s,
  ble_initialized s = true →
  ble_initialized (run (map (λ d, update (Some d)) ds) s) = true
  ∧ u32 (reading_id (run (map (λ d, update (Some d)) ds) s))
    = u32 (reading_id s + Z.of_nat (length ds))
  ∧ (ds ≠ [] → is_uint32 (reading_id (run (map (λ d, update (Some d)) ds) s))).
Proof.
  induction ds as [|d ds IH]; intros s Hi.
  - cbn [map length run foldl]. rewrite Z.add_0_r.
    split; [exact Hi|]. split; [reflexivity|]. intros Hne. congruence.
  - cbn [map]. rewrite run_cons. cbn [step].
    destruct (update_when_initialized d s Hi) as (data & -> & _ & _).
    cbn [snd].
    match goal with |- context [run _ ?st] => specialize (IH st eq_refl) end.
    cbn [reading_id] in IH. destruct IH as (IH1 & IH2 & IH3).
    split; [exact IH1|]. split.
    + rewrite IH2. unfold u32. rewrite Zplus_mod_idemp_l.
      f_equal. cbn [length]. lia.
    + intros _. destruct ds as [|d' ds'].
      * cbn [map run foldl reading_id]. unfold is_uint32, u32.
        apply Z.mod_pos_bound. lia.
      * apply IH3. discriminate.
Qed.

(** C3: a start that goes through sets reading_id to 0; every update that
    returns success leaves reading_id one higher, modulo 2^32, than it was
    before the call, and the payload it installs was built after the
    increment (it carries the new value); so any number of updates in a row
    counts up from the starting value modulo 2^32. *)
Theorem reading_id_counts_updates :
  (∀ (s : state) (dev_id init_result : Z),
      advertising_state s ≠ Active →
      reading_id (ble_advertise_init dev_id init_result s).2 = 0)
  ∧ (∀ (s s' : state) (data : option sensor_data_t),
      ble_advertise_update data s = (0, s') →
      reading_id s' = (reading_id s + 1) mod 2 ^ 32
      ∧ ∃ d, data = Some d
          ∧ adv_data s'
            = adv_data (build_adv_data (device_id s) (reading_id s')
                          (temperature d) (pressure d) (humidity d) s).2
          ∧ last (radio s')
            = Some (gap_advertisements_set_data 29 (adv_data s'))
          ∧ (wf_state s →
             advertised_bytes s' = adv_layout (device_id s) (reading_id s') d
             ∧ field32 6 (drop 7 (advertised_bytes s')) = reading_id s'))
  ∧ (∀ (s : state) (ds : list sensor_data_t),
      advertising_state s = Active →
      is_uint32 (reading_id s) →
      reading_id (run (map (λ d, update (Some d)) ds) s)
      = (reading_id s + Z.of_nat (length ds)) mod 2 ^ 32).
Proof.
  split; [|split].
  - intros s dev_id init_result Hs. apply not_active_iff in Hs.
    rewrite init_when_not_initialized by exact Hs. reflexivity.
  - intros s s' data Hu.
    destruct (ble_initialized s) eqn:Hi.
    2:{ rewrite update_when_not_initialized in Hu by exact Hi. discriminate. }
    destruct data as [d|]; [|rewrite update_null in Hu; discriminate].
    destruct (update_when_initialized d s Hi) as (buffer & Hr & Hlen & Hb).
    rewrite Hr in Hu. injection Hu as <-. cbn [reading_id adv_data radio].
    split; [reflexivity|]. exists d. split; [reflexivity|].
    split; [exact Hb|]. split; [apply last_snoc|].
    intros Hwf. rewrite build_adv_data_spec in Hb by exact Hwf.
    cbn [snd] in Hb. unfold with_adv in Hb. cbn [adv_data] in Hb.
    destruct d as [t p h]. cbn [temperature pressure humidity] in Hb.
    assert (Hbytes : advertised_bytes
              (State true (device_id s) (u32 (reading_id s + 1))
                 (hci_event_callback_registration s) buffer 29
                 (radio s ++ [gap_advertisements_set_data 29 buffer])
                 (console s
                  ++ [log_updated_advertisement (u32 (reading_id s + 1))
                        (SensorData t p h)]))
              = adv_layout (device_id s) (u32 (reading_id s + 1))
                  (SensorData t p h)).
    { unfold advertised_bytes. cbn [adv_data adv_data_len]. rewrite Hb.
      apply take_app_length'. reflexivity. }
    rewrite Hbytes. split; [reflexivity|].
    rewrite adv_layout_bytes. cbn [app drop].
    unfold payload_layout. cbn [app].
    change (field32 6) with (field32 (length [BLE_MAGIC_0; BLE_MAGIC_1; 0; 0; 0; 0])).
    unfold field32. cbn [length drop le_bytes app take].
    change (le_value (le_bytes 4 (u32 (reading_id s + 1)))
            = u32 (reading_id s + 1)).
    apply le_value_le_bytes_u32. unfold is_uint32, u32.
    apply Z.mod_pos_bound. lia.
  - intros s ds Hs Hr. apply active_iff in Hs.
    destruct (run_updates ds s Hs) as (_ & Hc & Hrange).
    destruct ds as [|d ds].
    + cbn [map run foldl length]. rewrite Z.add_0_r.
      symmetry. apply Z.mod_small. exact Hr.
    + rewrite <- (u32_small _ (Hrange ltac:(discriminate))). exact Hc.
Qed.

(** C4: an update issued while the controller is not Active, or with a null
    reading, returns the error code -1 and leaves the whole state as it was:
    reading_id is not touched and nothing is sent to the radio stack. *)
Theorem update_rejected_changes_nothing
    (s : state) (data : option sensor_data_t) :
  advertising_state s ≠ Active ∨ data = None →
  ble_advertise_update data s = (-1, s)
  ∧ reading_id (ble_advertise_update data s).2 = reading_id s
  ∧ radio (ble_advertise_update data s).2 = radio s.
Proof.
  intros [Hs | ->].
  - apply not_active_iff in Hs.
    rewrite update_when_not_initialized by exact Hs. repeat split.
  - rewrite update_null. repeat split.
Qed.

(** C6 (as amended): a start issued while the controller is Active returns 0,
    prints "already initialized" and does nothing else: reading_id, the
    recorded device identity, the buffer and the radio are left alone. *)
Theorem start_when_active_is_noop (s : state) (dev_id init_result : Z) :
  advertising_state s = Active →
  let s' := (ble_advertise_init dev_id init_result s).2 in
  (ble_advertise_init dev_id init_result s).1 = 0
  ∧ s' = (printf log_already_initialized s).2
  ∧ console s' = console s ++ [log_already_initialized]
  ∧ reading_id s' = reading_id s
  ∧ device_id s' = device_id s
  ∧ radio s' = radio s
  ∧ advertising_state s' = Active.
Proof.
  intros Hs s'. subst s'. pose proof Hs as Hi. apply active_iff in Hi.
  rewrite init_when_initialized by exact Hi. cbn [fst snd].
  run_M. rewrite Hi. repeat split.
Qed.

(** C9: a stop issued while the controller is Uninitialized or Stopped
    changes nothing; and after any stop, a second stop changes nothing. *)
Theorem stop_when_idle_is_noop :
  (∀ s : state,
      advertising_state s = Uninitialized ∨ advertising_state s = Stopped →
      ble_advertise_deinit s = (tt, s))
  ∧ (∀ s : state,
      ble_advertise_deinit (ble_advertise_deinit s).2
      = (tt, (ble_advertise_deinit s).2)).
Proof.
  split.
  - intros s Hs. apply deinit_when_not_initialized, not_active_iff.
    destruct Hs as [Hs|Hs]; rewrite Hs; discriminate.
  - intros s. destruct (ble_initialized s) eqn:Hi.
    + rewrite (deinit_when_initialized s Hi). cbn [snd].
      apply deinit_when_not_initialized. reflexivity.
    + rewrite (deinit_when_not_initialized s Hi). cbn [snd].
      apply deinit_when_not_initialized. exact Hi.
Qed.

(** C10: whatever the device_id and whatever [cyw43_arch_init] returns,
    [ble_advertise_init] returns 0; a non-zero result of the radio
    initialisation is printed and the start-up carries on to the power-on
    request. *)
Theorem init_always_returns_0 (s : state) (dev_id init_result : Z) :
  (ble_advertise_init dev_id init_result s).1 = 0
  ∧ (advertising_state s ≠ Active → init_result ≠ 0 →
     let s' := (ble_advertise_init dev_id init_result s).2 in
     console s' = console s
                  ++ [log_cyw43_arch_init_returned init_result;
                      log_initialization_started dev_id;
                      log_waiting_for_btstack]
     ∧ last (radio s') = Some (hci_power_control HCI_POWER_ON)).
Proof.
  destruct (ble_initialized s) eqn:Hi.
  - rewrite init_when_initialized by exact Hi. split; [reflexivity|].
    intros Hs. apply not_active_iff in Hs. congruence.
  - rewrite init_when_not_initialized by exact Hi. split; [reflexivity|].
    intros _ Hr s'. subst s'. cbn [snd console radio].
    destruct (Z.eqb_spec init_result 0) as [->|_]; [congruence|].
    split; [reflexivity|].
    change [cyw43_arch_init; l2cap_init; sm_init; hci_add_event_handler;
            hci_power_control HCI_POWER_ON]
      with ([cyw43_arch_init; l2cap_init; sm_init; hci_add_event_handler]
            ++ [hci_power_control HCI_POWER_ON]).
    rewrite app_assoc. apply last_snoc.
Qed.

End LifecycleProperties.

(** ** The properties at concrete inputs *)

#[local] Existing Instance btstack_defs.

Example lifecycle_states :
  advertising_state initial_state = Uninitialized
  ∧ advertising_state starting_state = Starting
  ∧ advertising_state active_state = Active
  ∧ advertising_state stopped_state = Stopped.
Proof. vm_compute. repeat split. Qed.

(** The scenario of the specification: start, readiness, two updates. *)
Example scenario_two_updates :
  let s1 := (ble_advertise_update (Some reading_1) active_state).2 in
  let s2 := (ble_advertise_update (Some reading_2) s1).2 in
  reading_id active_state = 0 ∧ reading_id s1 = 1 ∧ reading_id s2 = 2
  ∧ take 13 (adv_data s1) = take 13 (adv_data s2)
  ∧ adv_data_len s1 = 29 ∧ adv_data_len s2 = 29.
Proof. vm_compute. repeat split. Qed.

Lemma reading_id_counts_updates_witness :
  reading_id (ble_advertise_init 0xDEADBEEF 0 stopped_state).2 = 0
  ∧ reading_id
      (run
         (map (λ d, update (Some d)) [reading_1; reading_2]) active_state)
    = 2
  ∧ reading_id
      (ble_advertise_update (Some reading_1)
         (State true 7 0xFFFFFFFF true (replicate 31 0) 0 [] [])).2
    = 0.
Proof.
  destruct reading_id_counts_updates as (Hstart & Hstep & Hrun).
  split; [|split].
  - apply Hstart. vm_compute. discriminate.
  - rewrite Hrun; [vm_compute; reflexivity | vm_compute; reflexivity
                 | vm_compute; split; [discriminate | reflexivity]].
  - destruct (Hstep (State true 7 0xFFFFFFFF true (replicate 31 0) 0 [] [])
                _ (Some reading_1) (surjective_pairing _)) as (-> & _).
    vm_compute. reflexivity.
Defined.

Lemma update_rejected_changes_nothing_witness :
  ble_advertise_update (Some reading_1) starting_state
  = (-1, starting_state)
  ∧ ble_advertise_update None active_state = (-1, active_state).
Proof.
  split.
  - apply (update_rejected_changes_nothing starting_state
             (Some reading_1)).
    left. vm_compute. discriminate.
  - apply (update_rejected_changes_nothing active_state None).
    right. reflexivity.
Defined.

Lemma start_when_active_is_noop_witness :
  device_id
    (ble_advertise_init 0x12345678 0 active_state).2
  = 0xDEADBEEF.
Proof.
  destruct (start_when_active_is_noop active_state 0x12345678 0
              ltac:(vm_compute; reflexivity)) as (_ & _ & _ & _ & Hdev & _).
  rewrite Hdev. vm_compute. reflexivity.
Defined.

(** C6, as the specification states it, fails in the Starting state: a second
    start before the readiness event runs the whole start-up again; it
    overwrites the recorded device identity, calls into the radio stack and
    does not print "already initialized". *)
Lemma start_while_starting_restarts :
  let s' := (ble_advertise_init 0x12345678 0 starting_state).2 in
  advertising_state starting_state = Starting
  ∧ device_id starting_state = 0xDEADBEEF
  ∧ device_id s' = 0x12345678
  ∧ console s'
    = console starting_state
      ++ [log_initialization_started 0x12345678; log_waiting_for_btstack]
  ∧ radio s'
    = radio starting_state
      ++ [cyw43_arch_init; l2cap_init; sm_init; hci_add_event_handler;
          hci_power_control HCI_POWER_ON].
Proof. vm_compute. repeat split. Qed.

Lemma stop_when_idle_is_noop_witness :
  ble_advertise_deinit initial_state = (tt, initial_state)
  ∧ ble_advertise_deinit stopped_state = (tt, stopped_state)
  ∧ ble_advertise_deinit (ble_advertise_deinit active_state).2
    = (tt, stopped_state).
Proof.
  destruct stop_when_idle_is_noop as (Hidle & Htwice).
  split; [|split].
  - apply Hidle. left. vm_compute. reflexivity.
  - apply Hidle. right. vm_compute. reflexivity.
  - rewrite Htwice. vm_compute. reflexivity.
Defined.

Lemma init_always_returns_0_witness :
  (ble_advertise_init 0xDEADBEEF (-1) initial_state).1 = 0
  ∧ console (ble_advertise_init 0xDEADBEEF (-1) initial_state).2
    = [log_cyw43_arch_init_returned (-1);
       log_initialization_started 0xDEADBEEF;
       log_waiting_for_btstack].
Proof.
  destruct (init_always_returns_0 initial_state 0xDEADBEEF (-1))
    as (Hrc & Hlog).
  split; [exact Hrc|].
  destruct Hlog as (Hc & _); [vm_compute; discriminate | lia | exact Hc].
Defined.

(** ** The readiness event *)

Section PacketHandler.
Context `{btstack}.

(** The buffer [build_adv_data] leaves depends on the buffer it finds and on
    its arguments only. *)
Lemma build_adv_data_fun dev_id read_id temp pressure humidity :
  ∃ f : list Z → list Z, ∀ s,
    build_adv_data dev_id read_id temp pressure humidity s
    = (tt, with_adv (f (adv_data s)) 29 s).
Proof.
  exists (λ data,
    adv_data (build_adv_data dev_id read_id temp pressure humidity
                (with_adv data 0 initial_state)).2).
  intros s. unfold build_adv_data, with_adv. run_M.
  cbn [pos store memcpy advance Nat.add].
  rewrite !store_adv_data_len_fits by (simpl; lia).
  reflexivity.
Qed.

Lemma packet_handler_other packet_type channel packet size s :
  stack_is_working packet_type packet = false →
  packet_handler packet_type channel packet size s = (tt, s).
Proof.
  unfold stack_is_working, packet_handler. intros Hw.
  destruct (packet_type =? HCI_EVENT_PACKET); [|reflexivity].
  destruct (hci_event_packet_get_type packet =? BTSTACK_EVENT_STATE);
    [|reflexivity].
  destruct (btstack_event_state_get_state packet =? HCI_STATE_WORKING);
    [discriminate|reflexivity].
Qed.

Lemma packet_handler_working packet_type channel packet size s :
  stack_is_working packet_type packet = true →
  let data :=
    adv_data (build_adv_data (device_id s) (reading_id s)
                f32_zero f32_zero f32_zero s).2 in
  packet_handler packet_type channel packet size s
  = (tt, State true (device_id s) (reading_id s)
           (hci_event_callback_registration s) data 29
           (radio s
            ++ [gap_local_bd_addr;
                gap_advertisements_set_params 800 800 0 0 (replicate 6 0)
                  0x07 0x00;
                gap_advertisements_set_data 29 data;
                gap_advertisements_enable 1])
           (console s
            ++ [log_up_and_running; log_advertising_enabled (device_id s)])).
Proof.
  intros Hw. cbv zeta. unfold stack_is_working in Hw. unfold packet_handler.
  destruct (packet_type =? HCI_EVENT_PACKET); [|discriminate].
  destruct (hci_event_packet_get_type packet =? BTSTACK_EVENT_STATE);
    [|discriminate].
  destruct (btstack_event_state_get_state packet =? HCI_STATE_WORKING);
    [|discriminate].
  cbn [negb]. run_M.
  destruct (build_adv_data_fun (device_id s) (reading_id s)
              f32_zero f32_zero f32_zero) as (f & Hf).
  rewrite !Hf. unfold with_adv. run_M.
  rewrite <- !app_assoc. reflexivity.
Qed.

End PacketHandler.

(** ** What every call keeps true *)

Section Invariant.
Context `{btstack}.

Lemma built_buffer dev_id read_id temp pressure humidity s :
  wf_state s →
  let data :=
    adv_data (build_adv_data dev_id read_id temp pressure humidity s).2 in
  length data = 31%nat
  ∧ take 29 data = adv_layout dev_id read_id (SensorData temp pressure humidity).
Proof.
  intros Hwf. cbv zeta. rewrite build_adv_data_spec by exact Hwf.
  unfold with_adv. cbn [snd adv_data]. split.
  - rewrite length_app, length_drop, adv_layout_length.
    unfold wf_state in Hwf. rewrite Hwf. reflexivity.
  - apply take_app_length'. reflexivity.
Qed.

Lemma set_data_lengths_app l k :
  set_data_lengths (l ++ k) = set_data_lengths l ++ set_data_lengths k.
Proof. apply omap_app. Qed.

Lemma step_start dev_id init_result s :
  ble_invariant s → ble_invariant (step (start dev_id init_result) s).2.
Proof.
  intros (Hwf & Hlen & Hrid & Hradio & Hon). cbn [step].
  destruct (ble_initialized s) eqn:Hi.
  - rewrite init_when_initialized by exact Hi. cbn [snd].
    destruct (Hon eq_refl) as (Hcb & r & Hr).
    split; [exact Hwf|]. split; [exact Hlen|]. split; [exact Hrid|].
    split; [exact Hradio|]. intros _. split; [exact Hcb|]. exists r. exact Hr.
  - rewrite init_when_not_initialized by exact Hi. cbn [snd].
    split; [exact Hwf|]. split; [exact Hlen|].
    split; [unfold is_uint32; cbn [reading_id]; lia|].
    split; [|intros Hf; discriminate Hf].
    cbn [radio]. rewrite set_data_lengths_app, app_nil_r. exact Hradio.
Qed.

Lemma step_stop s : ble_invariant s → ble_invariant (step stop s).2.
Proof.
  intros (Hwf & Hlen & Hrid & Hradio & Hon). cbn [step].
  unfold mbind, M_bind, mret, M_ret.
  destruct (ble_initialized s) eqn:Hi.
  - rewrite deinit_when_initialized by exact Hi. cbn [snd].
    split; [exact Hwf|]. split; [exact Hlen|]. split; [exact Hrid|].
    split; [|intros Hf; discriminate Hf].
    cbn [radio]. rewrite set_data_lengths_app, app_nil_r. exact Hradio.
  - rewrite deinit_when_not_initialized by exact Hi. cbn [snd].
    split; [exact Hwf|]. split; [exact Hlen|]. split; [exact Hrid|].
    split; [exact Hradio|]. intros Hf. congruence.
Qed.

Lemma step_update data s :
  ble_invariant s → ble_invariant (step (update data) s).2.
Proof.
  intros Hinv. pose proof Hinv as (Hwf & Hlen & Hrid & Hradio & Hon).
  cbn [step]. destruct (ble_initialized s) eqn:Hi.
  2:{ rewrite update_when_not_initialized by exact Hi. exact Hinv. }
  destruct data as [d|]; [|rewrite update_null; exact Hinv].
  destruct (update_when_initialized d s Hi) as (data & -> & _ & Hdata).
  destruct (built_buffer (device_id s) (u32 (reading_id s + 1))
              (temperature d) (pressure d) (humidity d) s Hwf) as (Hl & Ht).
  rewrite <- Hdata in Hl, Ht. cbn [snd].
  split; [exact Hl|]. split; [right; reflexivity|].
  split; [unfold is_uint32, u32; cbn [reading_id]; apply Z.mod_pos_bound; lia|].
  split.
  - cbn [radio]. rewrite set_data_lengths_app. apply Forall_app.
    split; [exact Hradio|]. repeat constructor.
  - intros _. split; [apply (Hon eq_refl)|].
    exists d. unfold advertised_bytes.
    cbn [adv_data adv_data_len device_id reading_id].
    change (Z.to_nat 29) with 29%nat. rewrite Ht.
    destruct d. reflexivity.
Qed.

Lemma step_radio_event packet_type channel packet size s :
  ble_invariant s →
  ble_invariant (step (radio_event packet_type channel packet size) s).2.
Proof.
  intros Hinv. pose proof Hinv as (Hwf & Hlen & Hrid & Hradio & Hon).
  cbn [step]. unfold mbind, M_bind, mret, M_ret, gets.
  destruct (hci_event_callback_registration s) eqn:Hcb; [|exact Hinv].
  destruct (stack_is_working packet_type packet) eqn:Hw.
  2:{ rewrite packet_handler_other by exact Hw. exact Hinv. }
  rewrite (packet_handler_working _ _ _ _ _ Hw). cbn [snd].
  destruct (built_buffer (device_id s) (reading_id s)
              f32_zero f32_zero f32_zero s Hwf) as (Hl & Ht).
  split; [exact Hl|]. split; [right; reflexivity|]. split; [exact Hrid|].
  split.
  - cbn [radio]. rewrite set_data_lengths_app. apply Forall_app.
    split; [exact Hradio|]. repeat constructor.
  - intros _. split; [exact Hcb|].
    exists (SensorData f32_zero f32_zero f32_zero). unfold advertised_bytes.
    cbn [adv_data adv_data_len device_id reading_id].
    change (Z.to_nat 29) with 29%nat. exact Ht.
Qed.

Lemma step_invariant c s : ble_invariant s → ble_invariant (step c s).2.
Proof.
  destruct c.
  - apply step_start.
  - apply step_radio_event.
  - apply step_update.
  - apply step_stop.
Qed.

Lemma run_invariant cs : ∀ s, ble_invariant s → ble_invariant (run cs s).
Proof.
  induction cs as [|c cs IH]; intros s Hs; [exact Hs|].
  rewrite run_cons. apply IH, step_invariant, Hs.
Qed.

Lemma initial_state_invariant : ble_invariant initial_state.
Proof.
  split; [reflexivity|]. split; [left; reflexivity|].
  split; [unfold is_uint32; cbn; lia|]. split; [constructor|].
  intros Hf. discriminate Hf.
Qed.

(** X1: whatever start, stop, update and radio-event calls are made from
    power-up and in whatever order, the buffer keeps its 31 cells, the
    recorded length is at most 31, and every length handed to the radio
    stack with the advertisement data is 29. *)
Theorem radio_never_given_oversized_data (cs : list api_call) :
  let s := run cs initial_state in
  length (adv_data s) = 31%nat
  ∧ 0 <= adv_data_len s <= 31
  ∧ Forall (λ len, len = 29) (set_data_lengths (radio s)).
Proof.
  destruct (run_invariant cs _ initial_state_invariant)
    as (Hwf & Hlen & _ & Hradio & _).
  cbv zeta. split; [exact Hwf|]. split; [|exact Hradio].
  destruct Hlen as [-> | ->]; lia.
Qed.



End Invariant.

(** ** Start, readiness, stop *)

Section Sequences.
Context `{btstack}.

Lemma last_power_request_app l k :
  last_power_request (l ++ k)
  = match last_power_request k with
    | Some m => Some m
    | None => last_power_request l
    end.
Proof.
  unfold last_power_request. rewrite foldl_app.
  generalize (foldl (λ acc c, match c with
                              | hci_power_control m => Some m
                              | _ => acc
                              end) None l) as a.
  induction k as [|c k IH] using rev_ind; intros a.
  - destruct a; reflexivity.
  - rewrite !foldl_app. cbn [foldl]. destruct c; try apply IH; reflexivity.
Qed.

(** X3: a packet that is not the "stack is working" event (another packet
    type, another event, another state), or one that arrives while no
    handler is registered, changes nothing: no radio call, nothing printed,
    and the module does not become ready. *)
Theorem other_events_change_nothing
    (packet_type channel : Z) (packet : list Z) (size : Z) (s : state) :
  stack_is_working packet_type packet = false
  ∨ hci_event_callback_registration s = false →
  step (radio_event packet_type channel packet size) s = (0, s).
Proof.
  intros Hc. cbn [step]. unfold mbind, M_bind, mret, M_ret, gets.
  destruct (hci_event_callback_registration s); [|reflexivity].
  destruct Hc as [Hw|Hf]; [|discriminate Hf].
  rewrite packet_handler_other by exact Hw. reflexivity.
Qed.

(** X4: on the "stack is working" event the handler asks for the local
    address, sets the advertisement parameters (interval 800 to 800,
    type 0, channel map 7), builds the structure for the current device_id
    and reading_id with three zero floats, installs it with length 29,
    enables advertising, in that order, and only then reports ready; the
    device_id and the reading_id are left as they were. *)
Theorem readiness_event_installs_first_payload
    (packet_type channel : Z) (packet : list Z) (size : Z) (s : state) :
  wf_state s →
  stack_is_working packet_type packet = true →
  let s' := (packet_handler packet_type channel packet size s).2 in
  (ble_advertise_is_ready s').1 = true
  ∧ advertised_bytes s'
    = adv_layout (device_id s) (reading_id s)
        (SensorData f32_zero f32_zero f32_zero)
  ∧ radio s'
    = radio s
      ++ [gap_local_bd_addr;
          gap_advertisements_set_params 800 800 0 0 [0; 0; 0; 0; 0; 0] 7 0;
          gap_advertisements_set_data 29 (adv_data s');
          gap_advertisements_enable 1]
  ∧ device_id s' = device_id s
  ∧ reading_id s' = reading_id s.
Proof.
  intros Hwf Hw. cbv zeta.
  rewrite (packet_handler_working _ _ _ _ _ Hw). cbn [snd].
  destruct (built_buffer (device_id s) (reading_id s)
              f32_zero f32_zero f32_zero s Hwf) as (_ & Ht).
  split; [reflexivity|]. split; [|repeat split].
  unfold advertised_bytes. cbn [adv_data adv_data_len].
  change (Z.to_nat 29) with 29%nat. exact Ht.
Qed.


(** X6: between a start and the readiness event the module is not ready,
    and an update issued then is rejected with -1 and changes nothing. *)
Theorem update_before_ready_is_rejected
    (s : state) (dev_id init_result : Z) (data : option sensor_data_t) :
  advertising_state s ≠ Active →
  let s1 := (ble_advertise_init dev_id init_result s).2 in
  advertising_state s1 = Starting
  ∧ (ble_advertise_is_ready s1).1 = false
  ∧ ble_advertise_update data s1 = (-1, s1).
Proof.
  intros Hs. cbv zeta. apply not_active_iff in Hs.
  rewrite init_when_not_initialized by exact Hs. cbn [snd].
  split; [|split; [reflexivity|]].
  - unfold advertising_state. cbn [ble_initialized radio].
    rewrite last_power_request_app. reflexivity.
  - apply update_when_not_initialized. reflexivity.
Qed.

(** X7: a stop issued while Active disables advertising, powers the radio
    off and releases the driver, in that order, and leaves the module
    Stopped and not ready; the counter, the device identity and the buffer
    keep their values, and an update issued afterwards is rejected. *)
Theorem stop_when_active
    (s : state) (data : option sensor_data_t) :
  advertising_state s = Active →
  let s' := (ble_advertise_deinit s).2 in
  advertising_state s' = Stopped
  ∧ (ble_advertise_is_ready s').1 = false
  ∧ radio s' = radio s ++ [gap_advertisements_enable 0;
                           hci_power_control HCI_POWER_OFF;
                           cyw43_arch_deinit]
  ∧ reading_id s' = reading_id s
  ∧ device_id s' = device_id s
  ∧ adv_data s' = adv_data s
  ∧ ble_advertise_update data s' = (-1, s').
Proof.
  intros Hs. cbv zeta. apply active_iff in Hs.
  rewrite deinit_when_initialized by exact Hs. cbn [snd].
  split; [|split; [reflexivity|]].
  - unfold advertising_state. cbn [ble_initialized radio].
    rewrite last_power_request_app. reflexivity.
  - split; [reflexivity|]. split; [reflexivity|]. split; [reflexivity|].
    split; [reflexivity|]. apply update_when_not_initialized. reflexivity.
Qed.

End Sequences.

(** ** The payload as a code *)

(** X9: the payload determines its inputs: two payloads built from 32-bit
    values are equal only if the device_ids, the reading_ids and the three
    float patterns are. *)
Theorem manufacturer_payload_injective
    (b1 b2 : list Z) (dev1 dev2 rid1 rid2 : Z) (r1 r2 : sensor_data_t) :
  length b1 = 22%nat → length b2 = 22%nat →
  is_uint32 dev1 → is_uint32 dev2 → is_uint32 rid1 → is_uint32 rid2 →
  is_float32 (temperature r1) → is_float32 (pressure r1) →
  is_float32 (humidity r1) →
  is_float32 (temperature r2) → is_float32 (pressure r2) →
  is_float32 (humidity r2) →
  build_manufacturer_data b1 dev1 rid1
    (temperature r1) (pressure r1) (humidity r1)
  = build_manufacturer_data b2 dev2 rid2
      (temperature r2) (pressure r2) (humidity r2) →
  dev1 = dev2 ∧ rid1 = rid2 ∧ r1 = r2.
Proof.
  intros Hb1 Hb2 Hd1 Hd2 Hr1 Hr2 Ht1 Hp1 Hh1 Ht2 Hp2 Hh2 Heq.
  rewrite !build_manufacturer_data_bytes in Heq by assumption.
  apply (f_equal decode_manufacturer_data) in Heq.
  rewrite !decode_payload_layout in Heq. cbn [temperature pressure humidity] in Heq.
  unfold is_float32 in *.
  rewrite !u32_small in Heq by assumption.
  destruct r1 as [[t1] [p1] [h1]], r2 as [[t2] [p2] [h2]].
  cbn [temperature pressure humidity f32_bits] in Heq.
  injection Heq as -> -> -> -> ->. repeat split.
Qed.

(** ** The I2C adapter *)

Section AdapterProperties.
Context `{bme280_defs}.

Lemma to_int_small x : 0 <= x < 2 ^ 31 → to_int x = x.
Proof.
  intros Hx. unfold to_int. cbv zeta. rewrite u32_small by (unfold is_uint32; lia).
  destruct (Z.ltb_spec x (2 ^ 31)); [reflexivity|lia].
Qed.

(** The copy loop of [bme280_pico_i2c_write] after [n] rounds: the cells
    1..n hold the first [n] bytes of [data], the length is unchanged. *)
Lemma copy_loop (data : list Z) (n : nat) : ∀ (b : list Z),
  (n ≤ length data)%nat → (n < length b)%nat →
  let b' := foldl (λ b i, match data !! i with
                          | Some v => <[S i := v]> b
                          | None => b
                          end) b (seq 0 n) in
  length b' = length b
  ∧ take (S n) b' = take 1 b ++ take n data.
Proof.
  induction n as [|n IH]; intros b Hd Hb; cbv zeta.
  - cbn [seq foldl]. split; [reflexivity|]. rewrite take_0, app_nil_r.
    reflexivity.
  - rewrite seq_S, foldl_app. cbn [foldl Nat.add].
    destruct (IH b ltac:(lia) ltac:(lia)) as (Hl & Ht).
    destruct (lookup_lt_is_Some_2 data n ltac:(lia)) as (v & Hv).
    rewrite Hv. split; [rewrite length_insert; exact Hl|].
    rewrite (take_S_r _ (S n) v).
    + rewrite take_insert_ge by lia. rewrite Ht.
      rewrite (take_S_r data n v Hv). rewrite app_assoc. reflexivity.
    + apply list_lookup_insert_eq. rewrite Hl. lia.
Qed.

Lemma i2c_write_valid reg_addr data len ctx write_ret :
  0 <= len <= 20 →
  (Z.to_nat len ≤ length data)%nat →
  bme280_pico_i2c_write reg_addr (Some data) len (Some ctx) write_ret
  = (if write_ret =? len + 1 then BME280_INTF_RET_SUCCESS
     else BME280_E_COMM_FAIL,
     [i2c_write_blocking (i2c ctx) (addr ctx)
        (reg_addr :: take (Z.to_nat len) data) (len + 1) false]).
Proof.
  intros Hlen Hdata. unfold bme280_pico_i2c_write.
  destruct (Z.ltb_spec 20 len) as [Hlt|_]; [lia|].
  rewrite (u32_small (len + 1)) by (unfold is_uint32; lia).
  rewrite to_int_small by lia.
  replace (Z.to_nat (len + 1)) with (S (Z.to_nat len)) by lia.
  destruct (copy_loop data (Z.to_nat len) (<[0%nat:=reg_addr]> (replicate 21 0))
              Hdata) as (_ & Ht).
  { rewrite length_insert, length_replicate. lia. }
  rewrite Ht. change (take 1 (<[0%nat:=reg_addr]> (replicate 21 0)))
    with [reg_addr]. cbn [app].
  destruct (write_ret =? len + 1); reflexivity.
Qed.

(** X10: a write with a null context or a null data pointer returns
    BME280_E_NULL_PTR, and a write of more than 20 bytes returns
    BME280_E_INVALID_LEN; in both cases nothing is sent on the bus. *)
Theorem i2c_write_rejected_without_traffic
    (reg_addr : Z) (reg_data : option (list Z)) (len : Z)
    (intf_ptr : option bme280_pico_i2c_context) (write_ret : Z) :
  intf_ptr = None ∨ reg_data = None ∨ 20 < len →
  (bme280_pico_i2c_write reg_addr reg_data len intf_ptr write_ret).2 = []
  ∧ (intf_ptr = None ∨ reg_data = None →
     (bme280_pico_i2c_write reg_addr reg_data len intf_ptr write_ret).1
     = BME280_E_NULL_PTR)
  ∧ (intf_ptr ≠ None → reg_data ≠ None →
     (bme280_pico_i2c_write reg_addr reg_data len intf_ptr write_ret).1
     = BME280_E_INVALID_LEN).
Proof.
  intros Hc. unfold bme280_pico_i2c_write.
  destruct intf_ptr as [ctx|], reg_data as [data|];
    try (split; [reflexivity|]; split; [reflexivity|]; congruence).
  destruct Hc as [Hc|[Hc|Hc]]; try discriminate Hc.
  destruct (Z.ltb_spec 20 len) as [_|Hle]; [|lia].
  split; [reflexivity|]. split; [|reflexivity].
  intros [Hf|Hf]; discriminate Hf.
Qed.

(** X11: a write of [len] bytes, 0 to 20, with both pointers valid makes
    exactly one bus transfer, to the context's instance and address, with
    a stop: the register address followed by the first [len] data bytes,
    [len] + 1 bytes in all (at most 21); it returns success when the bus
    reports [len] + 1 bytes written and BME280_E_COMM_FAIL otherwise. *)
Theorem i2c_write_sends_register_then_data
    (reg_addr : Z) (data : list Z) (len : Z)
    (ctx : bme280_pico_i2c_context) (write_ret : Z) :
  0 <= len <= 20 →
  (Z.to_nat len ≤ length data)%nat →
  let frame := reg_addr :: take (Z.to_nat len) data in
  bme280_pico_i2c_write reg_addr (Some data) len (Some ctx) write_ret
  = (if write_ret =? len + 1 then BME280_INTF_RET_SUCCESS
     else BME280_E_COMM_FAIL,
     [i2c_write_blocking (i2c ctx) (addr ctx) frame (len + 1) false])
  ∧ Z.of_nat (length frame) = len + 1
  ∧ (length frame ≤ 21)%nat.
Proof.
  intros Hlen Hdata. cbv zeta.
  split; [apply i2c_write_valid; assumption|].
  cbn [length]. rewrite length_take. lia.
Qed.

(** X12: a read with a null context or a null buffer returns
    BME280_E_NULL_PTR with no bus traffic; when the transfer of the
    register address does not report one byte written, the read returns
    BME280_E_COMM_FAIL, issues no read transfer and leaves the caller's
    buffer as it was. *)
Theorem i2c_read_aborts_before_reading
    (reg_addr : Z) (reg_data : option (list Z)) (len : Z)
    (intf_ptr : option bme280_pico_i2c_context)
    (write_ret read_ret : Z) (received : list Z) :
  (intf_ptr = None ∨ reg_data = None →
   bme280_pico_i2c_read reg_addr reg_data len intf_ptr
     write_ret read_ret received
   = (BME280_E_NULL_PTR, reg_data, []))
  ∧ (∀ ctx data,
      intf_ptr = Some ctx → reg_data = Some data → write_ret ≠ 1 →
      bme280_pico_i2c_read reg_addr reg_data len intf_ptr
        write_ret read_ret received
      = (BME280_E_COMM_FAIL, Some data,
         [i2c_write_blocking (i2c ctx) (addr ctx) [reg_addr] 1 true])).
Proof.
  split.
  - intros [-> | ->]; [reflexivity|]. destruct intf_ptr; reflexivity.
  - intros ctx data -> -> Hw. unfold bme280_pico_i2c_read.
    destruct (Z.eqb_spec write_ret 1) as [He|_]; [contradiction|].
    reflexivity.
Qed.

(** X13: a read of [len] bytes ([len] below 2^31) whose address transfer
    went through makes two bus transfers to the context's instance and
    address: the one-byte register address without a stop, then a read of
    [len] bytes with a stop; it returns success when the bus reports [len]
    bytes read and BME280_E_COMM_FAIL otherwise. *)
Theorem i2c_read_addresses_then_reads
    (reg_addr : Z) (data : list Z) (len : Z)
    (ctx : bme280_pico_i2c_context) (read_ret : Z) (received : list Z) :
  0 <= len < 2 ^ 31 →
  let r := bme280_pico_i2c_read reg_addr (Some data) len (Some ctx)
             1 read_ret received in
  r.1.1 = (if read_ret =? len then BME280_INTF_RET_SUCCESS
           else BME280_E_COMM_FAIL)
  ∧ r.2 = [i2c_write_blocking (i2c ctx) (addr ctx) [reg_addr] 1 true;
           i2c_read_blocking (i2c ctx) (addr ctx) len false].
Proof.
  intros Hlen. cbv zeta. unfold bme280_pico_i2c_read.
  cbn [Z.eqb Pos.eqb negb]. rewrite to_int_small by exact Hlen.
  destruct (read_ret =? len); split; reflexivity.
Qed.

(** X14: initialisation sets up the instance at the requested frequency,
    then switches both pins to the I2C function and pulls both up; every
    later write through the context it returns is addressed to the instance
    and the address it was given. *)
Theorem i2c_init_then_write
    (GPIO_FUNC_I2C i2c_instance i2c_addr sda_pin scl_pin i2c_freq : Z)
    (reg_addr : Z) (data : list Z) (len write_ret : Z) :
  0 <= len <= 20 →
  (Z.to_nat len ≤ length data)%nat →
  let r := bme280_pico_i2c_init GPIO_FUNC_I2C i2c_instance i2c_addr
             sda_pin scl_pin i2c_freq in
  r.2 = [i2c_init i2c_instance i2c_freq;
         gpio_set_function sda_pin GPIO_FUNC_I2C;
         gpio_set_function scl_pin GPIO_FUNC_I2C;
         gpio_pull_up sda_pin;
         gpio_pull_up scl_pin]
  ∧ (bme280_pico_i2c_write reg_addr (Some data) len (Some r.1) write_ret).2
    = [i2c_write_blocking i2c_instance i2c_addr
         (reg_addr :: take (Z.to_nat len) data) (len + 1) false].
Proof.
  intros Hlen Hdata. cbv zeta. split; [reflexivity|].
  rewrite i2c_write_valid by assumption. reflexivity.
Qed.

End AdapterProperties.

(** ** The polling loop of main *)

Section MainProperties.
Context `{btstack} `{bme280_defs}.

Ltac run_main :=
  cbv [loop_body main_call_sdk with_ble led_set main_printf
       ble led_state next_sensor_read calls lines].

(** A radio event never touches the device identity or the counter, and
    never takes readiness away. *)
Lemma radio_event_keeps packet_type channel packet size s :
  let s' := (step (radio_event packet_type channel packet size) s).2 in
  device_id s' = device_id s
  ∧ reading_id s' = reading_id s
  ∧ (ble_initialized s = true → ble_initialized s' = true).
Proof.
  cbv zeta. cbn [step]. unfold mbind, M_bind, mret, M_ret, gets.
  destruct (hci_event_callback_registration s); [|repeat split; auto].
  destruct (stack_is_working packet_type packet) eqn:Hw.
  - rewrite (packet_handler_working _ _ _ _ _ Hw). repeat split; auto.
  - rewrite packet_handler_other by exact Hw. repeat split; auto.
Qed.

Lemma deliver_keeps ps : ∀ s,
  device_id (deliver ps s) = device_id s
  ∧ reading_id (deliver ps s) = reading_id s
  ∧ (ble_initialized s = true → ble_initialized (deliver ps s) = true)
  ∧ (ble_invariant s → ble_invariant (deliver ps s)).
Proof.
  unfold deliver. induction ps as [|p ps IH]; intros s.
  - cbn [map run foldl]. split; [reflexivity|]. split; [reflexivity|].
    split; intros Hs; exact Hs.
  - cbn [map]. rewrite run_cons.
    destruct (radio_event_keeps (pkt_type p) (pkt_channel p) (pkt_bytes p)
                (pkt_size p) s) as (Hd & Hr & Hi).
    destruct (IH (step (radio_event (pkt_type p) (pkt_channel p) (pkt_bytes p)
                          (pkt_size p)) s).2) as (Hd' & Hr' & Hi' & Hinv').
    split; [congruence|]. split; [congruence|]. split; [auto|].
    intros Hinv. apply Hinv', step_invariant, Hinv.
Qed.

(** The loop body, case by case. *)
Lemma loop_body_not_due i m :
  time_reached i = false →
  loop_body i m
  = MainState (deliver (pending i) (ble m)) (led_state m) (next_sensor_read m)
      (calls m ++ [async_context_poll;
                   async_context_wait_for_work_until (next_sensor_read m)])
      (lines m).
Proof.
  intros Hdue. destruct m as [b led nxt cl ln]. run_main. rewrite Hdue.
  rewrite <- app_assoc. reflexivity.
Qed.

Lemma loop_body_failed i m :
  time_reached i = true → rslt i ≠ BME280_OK →
  loop_body i m
  = MainState (deliver (pending i) (ble m)) (negb (led_state m)) (timeout i)
      (calls m ++ [async_context_poll;
                   async_context_wait_for_work_until (next_sensor_read m);
                   gpio_put LED_PIN (negb (led_state m));
                   bme280_get_sensor_data;
                   make_timeout_time_ms])
      (lines m ++ [line_failed_to_read (rslt i)]).
Proof.
  intros Hdue Hr. destruct m as [b led nxt cl ln]. run_main. rewrite Hdue.
  destruct (Z.eqb_spec (rslt i) BME280_OK) as [He|_]; [contradiction|].
  rewrite <- !app_assoc. reflexivity.
Qed.

Lemma loop_body_ok i m :
  time_reached i = true → rslt i = BME280_OK →
  let s1 := deliver (pending i) (ble m) in
  loop_body i m
  = MainState
      (if ble_initialized s1
       then (ble_advertise_update (Some (converted i)) s1).2
       else s1)
      (negb (led_state m)) (timeout i)
      (calls m ++ [async_context_poll;
                   async_context_wait_for_work_until (next_sensor_read m);
                   gpio_put LED_PIN (negb (led_state m));
                   bme280_get_sensor_data;
                   make_timeout_time_ms])
      (lines m ++ [line_temperature (temperature (converted i));
                   line_pressure (pressure (converted i));
                   line_humidity (humidity (converted i));
                   line_separator]).
Proof.
  intros Hdue Hr. cbv zeta. destruct m as [b led nxt cl ln].
  destruct (converted i) as [t p h] eqn:Hc.
  run_main. rewrite Hdue, Hr, Hc, Z.eqb_refl.
  cbv [temperature pressure humidity ble_advertise_is_ready gets fst].
  destruct (ble_initialized (deliver (pending i) b));
    rewrite <- !app_assoc; reflexivity.
Qed.

(** X15: a turn of the loop whose deadline is not reached only lets the
    pending radio events through: the LED, the deadline and the output of
    main stay as they were, the sensor is not read, and the counter and the
    device identity of the BLE module do not move. *)
Theorem loop_turn_not_due (i : loop_input) (m : main_state) :
  time_reached i = false →
  let m' := loop_body i m in
  ble m' = deliver (pending i) (ble m)
  ∧ led_state m' = led_state m
  ∧ next_sensor_read m' = next_sensor_read m
  ∧ lines m' = lines m
  ∧ calls m' = calls m ++ [async_context_poll;
                           async_context_wait_for_work_until
                             (next_sensor_read m)]
  ∧ reading_id (ble m') = reading_id (ble m)
  ∧ device_id (ble m') = device_id (ble m).
Proof.
  intros Hdue. cbv zeta. rewrite loop_body_not_due by exact Hdue.
  cbn [ble led_state next_sensor_read calls lines].
  destruct (deliver_keeps (pending i) (ble m)) as (Hd & Hr & _).
  repeat split; assumption.
Qed.

(** X16: on a turn whose deadline is reached and whose sensor read fails,
    the LED is toggled and driven, the failure is printed with its code,
    the next deadline is taken, and the BLE module is left as the pending
    events left it: no update, the counter does not move. *)
Theorem loop_turn_sensor_failure (i : loop_input) (m : main_state) :
  time_reached i = true →
  rslt i ≠ BME280_OK →
  let m' := loop_body i m in
  ble m' = deliver (pending i) (ble m)
  ∧ reading_id (ble m') = reading_id (ble m)
  ∧ led_state m' = negb (led_state m)
  ∧ calls m' = calls m ++ [async_context_poll;
                           async_context_wait_for_work_until
                             (next_sensor_read m);
                           gpio_put LED_PIN (negb (led_state m));
                           bme280_get_sensor_data;
                           make_timeout_time_ms]
  ∧ lines m' = lines m ++ [line_failed_to_read (rslt i)]
  ∧ next_sensor_read m' = timeout i.
Proof.
  intros Hdue Hr. cbv zeta. rewrite loop_body_failed by assumption.
  cbn [ble led_state next_sensor_read calls lines].
  destruct (deliver_keeps (pending i) (ble m)) as (_ & Hrid & _).
  repeat split. exact Hrid.
Qed.

(** X17: on a turn whose deadline is reached and whose sensor read
    succeeds, the three values are printed and, if the BLE module is ready
    once the pending events are through, it is updated with exactly these
    values; that update returns 0 (main discards the result) and moves the
    counter up by one modulo 2^32. If the module is not ready the turn
    leaves it alone. *)
Theorem loop_turn_publishes (i : loop_input) (m : main_state) :
  time_reached i = true →
  rslt i = BME280_OK →
  let s1 := deliver (pending i) (ble m) in
  let m' := loop_body i m in
  (ble_initialized s1 = true →
   ble_advertise_update (Some (converted i)) s1 = (0, ble m')
   ∧ reading_id (ble m') = (reading_id (ble m) + 1) mod 2 ^ 32)
  ∧ (ble_initialized s1 = false → ble m' = s1)
  ∧ led_state m' = negb (led_state m)
  ∧ lines m' = lines m ++ [line_temperature (temperature (converted i));
                           line_pressure (pressure (converted i));
                           line_humidity (humidity (converted i));
                           line_separator]
  ∧ next_sensor_read m' = timeout i.
Proof.
  intros Hdue Hr. cbv zeta.
  pose proof (loop_body_ok i m Hdue Hr) as Hb. cbv zeta in Hb. rewrite Hb.
  cbn [ble led_state next_sensor_read calls lines].
  destruct (deliver_keeps (pending i) (ble m)) as (_ & Hrid & _).
  destruct (ble_initialized (deliver (pending i) (ble m))) eqn:Hi.
  - destruct (update_when_initialized (converted i) _ Hi) as (data & Hu & _).
    rewrite Hu. cbn [snd reading_id]. rewrite Hrid.
    split; [intros _; split; reflexivity|].
    split; [intros Hf; discriminate Hf|]. repeat split.
  - split; [intros Hf; discriminate Hf|].
    split; [intros _; reflexivity|]. repeat split.
Qed.


(** X19: for every device identity and every result of the radio driver's
    initialisation, the BLE start-up of main prints that BLE was initialised
    successfully; the warning branch is never taken. *)
Theorem main_ble_init_never_warns
    (DEVICE_ID init_result : Z) (m : main_state) :
  lines (main_ble_init DEVICE_ID init_result m)
  = lines m ++ [line_initializing_ble; line_ble_init_ok].
Proof.
  destruct m as [b led nxt cl ln].
  cbv [main_ble_init main_printf with_ble ble led_state next_sensor_read
       calls lines].
  destruct (ble_initialized b) eqn:Hi.
  - rewrite init_when_initialized by exact Hi.
    cbn [Z.eqb negb]. rewrite <- app_assoc. reflexivity.
  - rewrite init_when_not_initialized by exact Hi.
    cbn [Z.eqb negb]. rewrite <- app_assoc. reflexivity.
Qed.

End MainProperties.

(** ** The further properties at concrete inputs *)

#[local] Existing Instance bosch_defs.


Lemma other_events_change_nothing_witness :
  step (radio_event 0x04 0 [0x60; 0x01; 0x01] 3) starting_state
  = (0, starting_state)
  ∧ step (radio_event 0x04 0 [0x60; 0x01; 0x02] 3) initial_state
    = (0, initial_state).
Proof.
  split.
  - apply other_events_change_nothing. left. vm_compute. reflexivity.
  - apply other_events_change_nothing. right. reflexivity.
Defined.

Lemma readiness_event_installs_first_payload_witness :
  advertised_bytes
    (packet_handler 0x04 0 [0x60; 0x01; 0x02] 3 starting_state).2
  = [0x02; 0x01; 0x06; 25; 0xFF; 0xFF; 0xFF; 0x01; 0xD0;
     0xEF; 0xBE; 0xAD; 0xDE; 0; 0; 0; 0; 0; 0; 0; 0; 0; 0; 0; 0; 0; 0; 0; 0].
Proof.
  pose proof (readiness_event_installs_first_payload
                0x04 0 [0x60; 0x01; 0x02] 3 starting_state) as Hw.
  cbv zeta in Hw.
  destruct Hw as (_ & Hb & _);
    [vm_compute; reflexivity | vm_compute; reflexivity |].
  rewrite Hb. vm_compute. reflexivity.
Defined.


Lemma update_before_ready_is_rejected_witness :
  ble_advertise_update (Some reading_1) starting_state = (-1, starting_state).
Proof.
  pose proof (update_before_ready_is_rejected initial_state 0xDEADBEEF 0
                (Some reading_1)) as Hw.
  cbv zeta in Hw. destruct Hw as (_ & _ & Hu); [vm_compute; discriminate|].
  exact Hu.
Defined.

Lemma stop_when_active_witness :
  advertising_state (ble_advertise_deinit active_state).2 = Stopped.
Proof.
  pose proof (stop_when_active active_state None) as Hw.
  cbv zeta in Hw. destruct Hw as (Hs & _); [vm_compute; reflexivity|].
  exact Hs.
Defined.

Lemma manufacturer_payload_injective_witness :
  0xDEADBEEF = 0xDEADBEEF ∧ 1 = 1 ∧ reading_1 = reading_1.
Proof.
  apply (manufacturer_payload_injective (replicate 22 0) (replicate 22 7)
           0xDEADBEEF 0xDEADBEEF 1 1 reading_1 reading_1);
    first [ vm_compute; reflexivity
          | vm_compute; split; [discriminate | reflexivity] ].
Defined.

Lemma i2c_write_rejected_without_traffic_witness :
  bme280_pico_i2c_write 0xF4 (Some (replicate 21 0)) 21
    (Some (I2cContext 0 0x76)) 22
  = (-3, [])
  ∧ bme280_pico_i2c_write 0xF4 None 1 (Some (I2cContext 0 0x76)) 2 = (-1, []).
Proof.
  split.
  - destruct (i2c_write_rejected_without_traffic 0xF4 (Some (replicate 21 0))
                21 (Some (I2cContext 0 0x76)) 22) as (Hc & _ & Hrc).
    { right. right. lia. }
    rewrite (surjective_pairing (bme280_pico_i2c_write _ _ _ _ _)).
    rewrite Hc, Hrc by discriminate. reflexivity.
  - destruct (i2c_write_rejected_without_traffic 0xF4 None
                1 (Some (I2cContext 0 0x76)) 2) as (Hc & Hrc & _).
    { right. left. reflexivity. }
    rewrite (surjective_pairing (bme280_pico_i2c_write _ _ _ _ _)).
    rewrite Hc, Hrc by (right; reflexivity). reflexivity.
Defined.

Lemma i2c_write_sends_register_then_data_witness :
  bme280_pico_i2c_write 0xF2 (Some [0x01; 0xF4; 0x27]) 3
    (Some (I2cContext 0 0x76)) 4
  = (0, [i2c_write_blocking 0 0x76 [0xF2; 0x01; 0xF4; 0x27] 4 false]).
Proof.
  pose proof (i2c_write_sends_register_then_data 0xF2 [0x01; 0xF4; 0x27] 3
                (I2cContext 0 0x76) 4) as Hw.
  cbv zeta in Hw. destruct Hw as (Hw & _); [lia | simpl; lia |].
  rewrite Hw. reflexivity.
Defined.

Lemma i2c_read_aborts_before_reading_witness :
  bme280_pico_i2c_read 0xD0 (Some [0xAA]) 1 (Some (I2cContext 0 0x76))
    (-1) 1 [0x60]
  = (-2, Some [0xAA], [i2c_write_blocking 0 0x76 [0xD0] 1 true]).
Proof.
  destruct (i2c_read_aborts_before_reading 0xD0 (Some [0xAA]) 1
              (Some (I2cContext 0 0x76)) (-1) 1 [0x60]) as (_ & Hw).
  apply (Hw (I2cContext 0 0x76) [0xAA]); [reflexivity | reflexivity | lia].
Defined.

Lemma i2c_read_addresses_then_reads_witness :
  (bme280_pico_i2c_read 0xD0 (Some [0xAA]) 1 (Some (I2cContext 0 0x76))
     1 1 [0x60]).2
  = [i2c_write_blocking 0 0x76 [0xD0] 1 true;
     i2c_read_blocking 0 0x76 1 false].
Proof.
  pose proof (i2c_read_addresses_then_reads 0xD0 [0xAA] 1
                (I2cContext 0 0x76) 1 [0x60]) as Hw.
  cbv zeta in Hw. destruct Hw as (_ & Hw); [lia|]. exact Hw.
Defined.

Lemma i2c_init_then_write_witness :
  (bme280_pico_i2c_write 0xF4 (Some [0x27]) 1
     (Some (bme280_pico_i2c_init 3 0 0x76 16 17 100000).1) 2).2
  = [i2c_write_blocking 0 0x76 [0xF4; 0x27] 2 false].
Proof.
  pose proof (i2c_init_then_write 3 0 0x76 16 17 100000 0xF4 [0x27] 1 2) as Hw.
  cbv zeta in Hw. destruct Hw as (_ & Hw); [lia | simpl; lia |]. exact Hw.
Defined.

Lemma loop_turn_not_due_witness :
  ble (loop_body turn_not_due main_active) = active_state
  ∧ led_state (loop_body turn_not_due main_active) = true.
Proof.
  pose proof (loop_turn_not_due turn_not_due main_active eq_refl) as Hw.
  cbv zeta in Hw. destruct Hw as (Hb & Hl & _).
  rewrite Hb, Hl. split; vm_compute; reflexivity.
Defined.

Lemma loop_turn_sensor_failure_witness :
  ble (loop_body turn_sensor_failed main_active) = active_state
  ∧ lines (loop_body turn_sensor_failed main_active)
    = [line_failed_to_read (-2)].
Proof.
  pose proof (loop_turn_sensor_failure turn_sensor_failed main_active eq_refl)
    as Hw.
  cbv zeta in Hw. destruct Hw as (Hb & _ & _ & _ & Hl & _).
  { vm_compute. discriminate. }
  rewrite Hb, Hl. split; vm_compute; reflexivity.
Defined.

Lemma loop_turn_publishes_witness :
  reading_id
    (ble (loop_body turn_ready_and_due
            (MainState starting_state false 0 [] [])))
  = 1.
Proof.
  pose proof (loop_turn_publishes turn_ready_and_due
                (MainState starting_state false 0 [] []) eq_refl eq_refl)
    as Hw.
  cbv zeta in Hw. destruct Hw as (Hp & _).
  destruct Hp as (_ & Hr); [vm_compute; reflexivity|].
  rewrite Hr. vm_compute. reflexivity.
Defined.

